(** * Cricket dashboard: a shallow embedding of [dashboard.py]

    The program reads per-category CSV exports through pandas, optionally
    narrows them to the matches of one team, and hands a fixed list of
    aggregates to Streamlit.  The embedding below follows the source line by
    line:

    - a pandas [Series] is a typed column (integer cells or text cells, each
      possibly null), a [DataFrame] an ordered list of named columns;
    - the filesystem is an explicit argument; a file carries the outcome of
      [pd.read_csv] on it, a directory the result of [os.listdir];
    - Python exceptions are values of [exn], threaded through [result];
    - the calls to Streamlit are collected, in order, in a writer ([render])
      that also records an early [return] or an uncaught exception.

    Scope of the model.  Numeric cells are integers: [IntS] is an int64
    column, [FloatS] the float64 column [read_csv] gives to numbers with
    missing values, holding whole numbers and nulls; strings are byte
    strings; paths are compared literally.  [Series.str.contains] compiles
    its argument as a regular expression: literal characters and [.] are
    modelled, any other operator yields [Unmodelled]. *)

From Stdlib Require Import List ZArith String Ascii Bool Lia Sorted Permutation.
Import ListNotations.
Local Open Scope string_scope.
Local Open Scope list_scope.

(* ================================================================= *)
(** * Part I: the embedding *)
(* ================================================================= *)

(** ** Exceptions and results *)

Inductive exn : Type :=
| KeyError (labels : list string)
| UnboundLocalError (name : string)
| AttributeError (msg : string)
| FileNotFoundError (path : string)
| IsADirectoryError (path : string)
| NotADirectoryError (path : string)
| ParserError (msg : string)
| Unmodelled (what : string).

Inductive result (A : Type) : Type :=
| Ok (a : A)
| Raise (e : exn).

Arguments Ok {A} a.
Arguments Raise {A} e.

Definition rbind {A B} (r : result A) (k : A -> result B) : result B :=
  match r with
  | Ok a => k a
  | Raise e => Raise e
  end.

Declare Scope result_scope.
Delimit Scope result_scope with result.
Notation "x <- r ;; k" := (rbind r (fun x => k))
  (at level 61, r at next level, right associativity) : result_scope.

(** ** Cells, series and frames *)

Inductive val : Type :=
| VInt (z : Z)
| VStr (s : string).

(** [None] is pandas' NaN. *)
Definition cell : Type := option val.

Inductive Series : Type :=
| IntS (xs : list (option Z))
| FloatS (xs : list (option Z))
| StrS (xs : list (option string)).

Definition DataFrame : Type := list (string * Series).

Definition val_eqb (a b : val) : bool :=
  match a, b with
  | VInt x, VInt y => Z.eqb x y
  | VStr x, VStr y => String.eqb x y
  | _, _ => false
  end.

(** Membership tests of pandas ([isin], [unique]) identify nulls. *)
Definition cell_eqb (a b : cell) : bool :=
  match a, b with
  | None, None => true
  | Some x, Some y => val_eqb x y
  | _, _ => false
  end.

Definition val_leb (a b : val) : bool :=
  match a, b with
  | VInt x, VInt y => Z.leb x y
  | VStr x, VStr y => String.leb x y
  | VInt _, VStr _ => true
  | VStr _, VInt _ => false
  end.

Definition values (s : Series) : list cell :=
  match s with
  | IntS xs => map (option_map VInt) xs
  | FloatS xs => map (option_map VInt) xs
  | StrS xs => map (option_map VStr) xs
  end.

Definition size (s : Series) : nat :=
  match s with
  | IntS xs => List.length xs
  | FloatS xs => List.length xs
  | StrS xs => List.length xs
  end.

(** Boolean indexing: keep the positions where the mask is [true]. *)
Fixpoint select_mask {A} (mask : list bool) (xs : list A) : list A :=
  match mask, xs with
  | b :: m, x :: xs' =>
      if b then x :: select_mask m xs' else select_mask m xs'
  | _, _ => []
  end.

Definition series_mask (mask : list bool) (s : Series) : Series :=
  match s with
  | IntS xs => IntS (select_mask mask xs)
  | FloatS xs => FloatS (select_mask mask xs)
  | StrS xs => StrS (select_mask mask xs)
  end.

Definition series_head (n : nat) (s : Series) : Series :=
  match s with
  | IntS xs => IntS (firstn n xs)
  | FloatS xs => FloatS (firstn n xs)
  | StrS xs => StrS (firstn n xs)
  end.

(** [pd.DataFrame()] *)
Definition empty_frame : DataFrame := [].

Definition columns (df : DataFrame) : list string := map fst df.

(** [len(df)] *)
Definition len (df : DataFrame) : nat :=
  match df with
  | [] => 0
  | (_, s) :: _ => size s
  end.

(** [df.empty]: no column, or no row. *)
Definition empty (df : DataFrame) : bool :=
  match df with
  | [] => true
  | _ :: _ => Nat.eqb (len df) 0
  end.

(** Frames produced by [read_csv] and by row selection are rectangular. *)
Definition rectangular (df : DataFrame) : Prop :=
  forall c s, In (c, s) df -> size s = len df.

Fixpoint find_col (df : DataFrame) (c : string) : option Series :=
  match df with
  | [] => None
  | (n, s) :: df' => if String.eqb n c then Some s else find_col df' c
  end.

(** ["c" in df.columns] *)
Definition has_col (df : DataFrame) (c : string) : bool :=
  match find_col df c with
  | Some _ => true
  | None => false
  end.

(** [df["c"]] *)
Definition col (df : DataFrame) (c : string) : result Series :=
  match find_col df c with
  | Some s => Ok s
  | None => Raise (KeyError [c])
  end.

(** [df[["c1", ..., "cn"]]]: every label must exist. *)
Definition select_cols (df : DataFrame) (cs : list string) : result DataFrame :=
  match filter (fun c => negb (has_col df c)) cs with
  | [] =>
      Ok (flat_map (fun c => match find_col df c with
                             | Some s => [(c, s)]
                             | None => []
                             end) cs)
  | missing => Raise (KeyError missing)
  end.

(** [df[mask]] *)
Definition mask_rows (mask : list bool) (df : DataFrame) : DataFrame :=
  map (fun cs => (fst cs, series_mask mask (snd cs))) df.

(** [df.head(n)] *)
Definition head (n : nat) (df : DataFrame) : DataFrame :=
  map (fun cs => (fst cs, series_head n (snd cs))) df.

(** The rows of a frame, as the lists of their cells in column order. *)
Fixpoint row_at (df : DataFrame) (i : nat) : list cell :=
  match df with
  | [] => []
  | (_, s) :: df' => nth i (values s) None :: row_at df' i
  end.

Definition rows (df : DataFrame) : list (list cell) :=
  map (row_at df) (seq 0 (len df)).

(** ** Series operations used by the dashboard *)

Definition is_some {A} (o : option A) : bool :=
  match o with
  | Some _ => true
  | None => false
  end.

Definition count_true (mask : list bool) : Z :=
  Z.of_nat (List.length (filter (fun b => b) mask)).

(** [s.notna()] *)
Definition notna (s : Series) : list bool := map is_some (values s).

(** [s == "text"] *)
Definition eq_str (s : Series) (lit : string) : list bool :=
  map (fun c => cell_eqb c (Some (VStr lit))) (values s).

(** [s.isin(ids)] *)
Definition isin (s : Series) (ids : list cell) : list bool :=
  map (fun c => existsb (cell_eqb c) ids) (values s).

(** Order-preserving removal of repeated elements (first occurrence kept). *)
Fixpoint dedup {A} (eqb : A -> A -> bool) (l : list A) : list A :=
  match l with
  | [] => []
  | x :: l' => x :: filter (fun y => negb (eqb x y)) (dedup eqb l')
  end.

Definition count_eq {A} (eqb : A -> A -> bool) (x : A) (l : list A) : nat :=
  List.length (filter (eqb x) l).

(** [s.unique()] *)
Definition unique (s : Series) : list cell := dedup cell_eqb (values s).

Definition sum_cells (xs : list (option Z)) : Z :=
  fold_right (fun x acc => match x with
                           | Some z => (z + acc)%Z
                           | None => acc
                           end) 0%Z xs.

(** Two's-complement wrap of a 64-bit integer. *)
Definition wrap64 (z : Z) : Z := ((z + 2 ^ 63) mod 2 ^ 64 - 2 ^ 63)%Z.

Definition abs_total (xs : list (option Z)) : Z :=
  fold_right (fun x acc => match x with
                           | Some z => (Z.abs z + acc)%Z
                           | None => acc
                           end) 0%Z xs.

(** [s.sum()]: nulls are skipped.  An int64 column is added in int64, which
    wraps silently.  A float64 column is added in float64: as long as the
    magnitudes of its cells add up to at most [2^53] every partial sum, in
    any order, is a whole number float64 holds exactly, and the result is
    the sum; past that the result depends on rounding, which is left out of
    the model, as is the text pandas concatenates when it sums a text
    column. *)
Definition series_sum (s : Series) : result Z :=
  match s with
  | IntS xs => Ok (wrap64 (sum_cells xs))
  | FloatS xs =>
      if Z.leb (abs_total xs) (2 ^ 53)
      then Ok (sum_cells xs)
      else Raise (Unmodelled "float64 sum past 2^53")
  | StrS xs =>
      if existsb is_some xs
      then Raise (Unmodelled "sum over a text column")
      else Ok 0%Z
  end.

(** Insertion sort; [x] is put in front of the first [y] with [before x y]. *)
Fixpoint insert_by {A} (before : A -> A -> bool) (x : A) (l : list A) : list A :=
  match l with
  | [] => [x]
  | y :: l' => if before x y then x :: l else y :: insert_by before x l'
  end.

Definition sort_by {A} (before : A -> A -> bool) (l : list A) : list A :=
  fold_right (insert_by before) [] l.

(** [sort_values(key, ascending=False)] on a list of rows.  Rows with equal
    keys keep their relative order here; pandas' default sort gives no such
    promise, and nothing below relies on it. *)
Definition sort_values_desc {A} (key : A -> Z) (l : list A) : list A :=
  sort_by (fun x y => Z.leb (key y) (key x)) l.

Definition non_null (cs : list cell) : list val :=
  flat_map (fun c => match c with
                     | Some v => [v]
                     | None => []
                     end) cs.

(** [s.value_counts()]: nulls dropped, most frequent value first. *)
Definition value_counts (s : Series) : list (val * Z) :=
  let vs := non_null (values s) in
  sort_values_desc snd
    (map (fun v => (v, Z.of_nat (count_eq val_eqb v vs))) (dedup val_eqb vs)).

Fixpoint lookup_count (k : val) (vc : list (val * Z)) : option Z :=
  match vc with
  | [] => None
  | (v, n) :: vc' => if val_eqb k v then Some n else lookup_count k vc'
  end.

(** [vc.reindex(labels, fill_value=fill)] *)
Definition reindex (labels : list val) (fill : Z) (vc : list (val * Z))
  : list (val * Z) :=
  map (fun k => (k, match lookup_count k vc with
                    | Some n => n
                    | None => fill
                    end)) labels.

Definition pair_eqb (p q : val * val) : bool :=
  val_eqb (fst p) (fst q) && val_eqb (snd p) (snd q).

Definition pair_leb (p q : val * val) : bool :=
  if val_eqb (fst p) (fst q) then val_leb (snd p) (snd q)
  else val_leb (fst p) (fst q).

Fixpoint zip_keys (a b : list cell) : list (val * val) :=
  match a, b with
  | Some x :: a', Some y :: b' => (x, y) :: zip_keys a' b'
  | _ :: a', _ :: b' => zip_keys a' b'
  | _, _ => []
  end.

(** [df.groupby([a, b]).size()]: null keys dropped, groups in key order. *)
Definition groupby_size (a b : Series) : list (val * val * Z) :=
  let ps := zip_keys (values a) (values b) in
  map (fun p => (fst p, snd p, Z.of_nat (count_eq pair_eqb p ps)))
      (sort_by pair_leb (dedup pair_eqb ps)).

(** [df.dropna(how="all")]: drop the rows whose cells are all null. *)
Definition dropna_all (df : DataFrame) : DataFrame :=
  mask_rows (map (fun r => existsb is_some r) (rows df)) df.

(** ** [Series.str.contains(pat, na=False)]

    pandas compiles [pat] with [re] (its [regex] argument defaults to
    [True]) and keeps the cells in which [re.search] finds a match; a null
    cell gives [False].  Of the pattern language, literal characters and the
    dot (any character but a newline) are modelled.  A dot stands for one
    byte here and for one character in Python; the two agree on ASCII
    text.  On a numeric column the [.str] accessor raises [AttributeError];
    the payload is the part of its message that all pandas versions
    share. *)

Definition regex_special (c : ascii) : bool :=
  existsb (Ascii.eqb c) (list_ascii_of_string ".^$*+?{}[]\|()").

Definition dot : ascii := "."%char.
Definition newline : ascii := ascii_of_nat 10.

Definition modelled_pattern (pat : string) : bool :=
  forallb (fun c => negb (regex_special c) || Ascii.eqb c dot)
          (list_ascii_of_string pat).

(** A name with no regular-expression operator at all. *)
Definition plain_text (pat : string) : bool :=
  forallb (fun c => negb (regex_special c)) (list_ascii_of_string pat).

Definition atom_matches (p c : ascii) : bool :=
  if Ascii.eqb p dot then negb (Ascii.eqb c newline) else Ascii.eqb p c.

Fixpoint match_here (pat s : string) : bool :=
  match pat with
  | EmptyString => true
  | String p pat' =>
      match s with
      | EmptyString => false
      | String c s' => atom_matches p c && match_here pat' s'
      end
  end.

Fixpoint search (pat s : string) : bool :=
  match_here pat s ||
  match s with
  | EmptyString => false
  | String _ s' => search pat s'
  end.

Definition str_contains (s : Series) (pat : string) : result (list bool) :=
  match s with
  | IntS _ | FloatS _ =>
      Raise (AttributeError "Can only use .str accessor with string values")
  | StrS xs =>
      if modelled_pattern pat
      then Ok (map (fun x => match x with
                             | Some t => search pat t
                             | None => false
                             end) xs)
      else Raise (Unmodelled "regular expression operator")
  end.

(** The reading of "contains as a substring" the specification uses, and a
    test that decides it. *)
Definition is_substring (t s : string) : Prop :=
  exists pre post, s = (pre ++ t ++ post)%string.

Fixpoint starts_with (t s : string) : bool :=
  match t with
  | EmptyString => true
  | String a t' =>
      match s with
      | EmptyString => false
      | String c s' => Ascii.eqb a c && starts_with t' s'
      end
  end.

Fixpoint contains_literal (t s : string) : bool :=
  starts_with t s ||
  match s with
  | EmptyString => false
  | String _ s' => contains_literal t s'
  end.

(** ** Paths and the filesystem *)

Definition BASE_PATH : string := "cricket/analysis".

Definition SUBFOLDERS : list (string * string) :=
  [ ("all_json", "All International Matches");
    ("ipl_json", "IPL Matches");
    ("mdms_json", "Multiday Matches");
    ("odis_json", "ODI Matches");
    ("t20s_json", "T20 International Matches");
    ("tests_json", "Test Matches") ].

Definition slash : ascii := "/"%char.

Definition starts_with_slash (p : string) : bool :=
  match p with
  | String c _ => Ascii.eqb c slash
  | EmptyString => false
  end.

Fixpoint ends_with_slash (p : string) : bool :=
  match p with
  | EmptyString => false
  | String c EmptyString => Ascii.eqb c slash
  | String _ p' => ends_with_slash p'
  end.

(** One step of [os.path.join] (POSIX). *)
Definition join2 (a b : string) : string :=
  if starts_with_slash b then b
  else if String.eqb a "" || ends_with_slash a then (a ++ b)%string
  else (a ++ "/" ++ b)%string.

(** [os.path.join(a, *ps)] *)
Definition path_join (a : string) (ps : list string) : string :=
  fold_left join2 ps a.

(** Permissions are not part of the model: every directory can be listed.
    What reading a file raises is carried by the file. *)
Inductive node : Type :=
| Dir (entries : list string)
| File (csv : result DataFrame).

Definition FS : Type := list (string * node).

Fixpoint lookup (fs : FS) (p : string) : option node :=
  match fs with
  | [] => None
  | (q, n) :: fs' => if String.eqb q p then Some n else lookup fs' p
  end.

(** [os.path.exists] *)
Definition path_exists (fs : FS) (p : string) : bool :=
  match lookup fs p with
  | Some _ => true
  | None => false
  end.

(** [os.path.isdir] *)
Definition isdir (fs : FS) (p : string) : bool :=
  match lookup fs p with
  | Some (Dir _) => true
  | _ => false
  end.

(** [os.listdir] *)
Definition listdir (fs : FS) (p : string) : result (list string) :=
  match lookup fs p with
  | Some (Dir es) => Ok es
  | Some (File _) => Raise (NotADirectoryError p)
  | None => Raise (FileNotFoundError p)
  end.

(** [pd.read_csv] *)
Definition read_csv (fs : FS) (p : string) : result DataFrame :=
  match lookup fs p with
  | Some (File r) => r
  | Some (Dir _) => Raise (IsADirectoryError p)
  | None => Raise (FileNotFoundError p)
  end.

(** ** Helpers of the source *)

Definition load_csv (fs : FS) (path : string) : result DataFrame :=
  if path_exists fs path then read_csv fs path else Ok empty_frame.

Definition get_teams (fs : FS) (folder : string) : result (list string) :=
  let team_dir := path_join BASE_PATH [folder; "team"] in
  if path_exists fs team_dir then
    (ds <- listdir fs team_dir ;;
     Ok (filter (fun d => isdir fs (path_join team_dir [d])) ds))%result
  else Ok [].

Definition get_players (fs : FS) (folder : string) (team : option string)
  : result (list string) :=
  let player_dir := path_join BASE_PATH [folder; "player"] in
  if path_exists fs player_dir then
    (ds <- listdir fs player_dir ;;
     Ok (filter (fun d => isdir fs (path_join player_dir [d])) ds))%result
  else Ok [].

(** ** What is handed to Streamlit *)

Inductive view : Type :=
| CountTable (key value : string) (rows : list (val * Z))
| GroupTable (key1 key2 value : string) (rows : list (val * val * Z))
| ScoreTable (key value : string) (rows : list (string * Z))
| FielderTable (rows : list (string * (Z * Z * Z)))
| FrameView (df : DataFrame).

Inductive widget : Type :=
| header (text : string)
| subheader (text : string)
| warning (text : string)
| altair_chart (mark : string) (encoding : list (string * string)) (v : view)
| bar_chart (v : view)
| table (v : view).

(** How a block of statements ends: it falls through with a value, executes
    [return], or lets an exception escape. *)
Inductive flow (A : Type) : Type :=
| Next (a : A)
| Return
| Throw (e : exn).

Arguments Next {A} a.
Arguments Return {A}.
Arguments Throw {A} e.

Definition render (A : Type) : Type := (list widget * flow A)%type.

Definition bind {A B} (m : render A) (k : A -> render B) : render B :=
  match m with
  | (out, Next a) => (out ++ fst (k a), snd (k a))
  | (out, Return) => (out, Return)
  | (out, Throw e) => (out, Throw e)
  end.

Definition st (w : widget) : render unit := ([w], Next tt).

Definition pass : render unit := ([], Next tt).

Definition eval {A} (r : result A) : render A :=
  match r with
  | Ok a => ([], Next a)
  | Raise e => ([], Throw e)
  end.

Declare Scope render_scope.
Delimit Scope render_scope with render.
Notation "x <- m ;; k" := (bind m (fun x => k))
  (at level 61, m at next level, right associativity) : render_scope.
Notation "m ;; k" := (bind m (fun _ => k))
  (at level 61, right associativity) : render_scope.

(** ** The team filter (lines 44-49) *)

(** Truth value of the [team] argument: [None] and [""] are false. *)
Definition truthy (team : option string) : bool :=
  match team with
  | Some t => negb (String.eqb t "")
  | None => false
  end.

Definition team_text (team : option string) : string :=
  match team with
  | Some t => t
  | None => ""
  end.

(** Reading a local variable that may not have been assigned. *)
Definition read_local {A} (name : string) (v : option A) : result A :=
  match v with
  | Some a => Ok a
  | None => Raise (UnboundLocalError name)
  end.

(** [df[df["match_id"].isin(ids)]] *)
Definition restrict (df : DataFrame) (ids : list cell) : result DataFrame :=
  (m <- col df "match_id" ;;
   Ok (mask_rows (isin m ids) df))%result.

(** Returns the local [valid_match_ids] (unassigned when the block is
    skipped) and the three tables as they stand after line 49. *)
Definition team_filter (team : option string)
    (ball_df info_df matches_df : DataFrame)
  : result (option (list cell) * DataFrame * DataFrame * DataFrame) :=
  if truthy team && negb (empty matches_df) then
    (teams <- col matches_df "teams" ;;
     mask <- str_contains teams (team_text team) ;;
     let team_matches := mask_rows mask matches_df in
     ids <- col team_matches "match_id" ;;
     let valid_match_ids := unique ids in
     ball_df' <- restrict ball_df valid_match_ids ;;
     info_df' <- restrict info_df valid_match_ids ;;
     matches_df' <- restrict matches_df valid_match_ids ;;
     Ok (Some valid_match_ids, ball_df', info_df', matches_df'))%result
  else Ok (None, ball_df, info_df, matches_df).

(** ** Aggregates over the ball-events table *)

Definition run_labels : list val := map VInt [0; 1; 2; 3; 4; 6]%Z.

(** Line 57. *)
Definition runs_distribution (ball_df : DataFrame) : result (list (val * Z)) :=
  (s <- col ball_df "runs_batter" ;;
   Ok (reindex run_labels 0%Z (value_counts s)))%result.

Definition counts_of (df : DataFrame) (c : string) : result (list (val * Z)) :=
  (s <- col df c ;; Ok (value_counts s))%result.

(** Lines 78-83. *)
Definition totals (ball_df : DataFrame) : result (list (string * Z)) :=
  (rt <- col ball_df "runs_total" ;;
   total_runs <- series_sum rt ;;
   wt <- col ball_df "wicket_type" ;;
   let total_wickets := count_true (notna wt) in
   re <- col ball_df "runs_extras" ;;
   total_extras <- series_sum re ;;
   Ok [ ("Total Runs", total_runs);
        ("Total Wickets", total_wickets);
        ("Total Extras", total_extras);
        ("Total Balls", Z.of_nat (len ball_df)) ])%result.

(** ** Per-player loops (lines 88-95, 101-108, 114-123) *)

(** [if team: df = df[df["match_id"].isin(valid_match_ids)]] *)
Definition restrict_team (team : option string) (valid : option (list cell))
    (df : DataFrame) : result DataFrame :=
  if truthy team then
    (m <- col df "match_id" ;;
     ids <- read_local "valid_match_ids" valid ;;
     Ok (mask_rows (isin m ids) df))%result
  else Ok df.

Fixpoint player_loop {A} (fs : FS) (player_dir file : string)
    (team : option string) (valid : option (list cell))
    (metric : DataFrame -> result A) (names : list string)
  : result (list (string * A)) :=
  match names with
  | [] => Ok []
  | pname :: rest =>
      let csv := path_join player_dir [pname; file] in
      if path_exists fs csv then
        (df <- load_csv fs csv ;;
         df <- restrict_team team valid df ;;
         x <- metric df ;;
         data <- player_loop fs player_dir file team valid metric rest ;;
         Ok ((pname, x) :: data))%result
      else player_loop fs player_dir file team valid metric rest
  end.

Definition player_data {A} (fs : FS) (player_dir file : string)
    (team : option string) (valid : option (list cell))
    (metric : DataFrame -> result A) : result (list (string * A)) :=
  if path_exists fs player_dir then
    (names <- listdir fs player_dir ;;
     player_loop fs player_dir file team valid metric names)%result
  else Ok [].

Definition batter_runs (df : DataFrame) : result Z :=
  (s <- col df "runs_batter" ;; series_sum s)%result.

Definition bowler_wickets (df : DataFrame) : result Z :=
  (s <- col df "wicket_type" ;; Ok (count_true (notna s)))%result.

Definition count_wicket (df : DataFrame) (kind : string) : result Z :=
  (s <- col df "wicket_type" ;; Ok (count_true (eq_str s kind)))%result.

Definition fielder_dismissals (df : DataFrame) : result (Z * Z * Z) :=
  (catches <- count_wicket df "caught" ;;
   runouts <- count_wicket df "run out" ;;
   Ok ((catches + runouts)%Z, catches, runouts))%result.

Definition run_data fs player_dir team valid : result (list (string * Z)) :=
  player_data fs player_dir "batter.csv" team valid batter_runs.

Definition wk_data fs player_dir team valid : result (list (string * Z)) :=
  player_data fs player_dir "bowler.csv" team valid bowler_wickets.

Definition fld_data fs player_dir team valid
  : result (list (string * (Z * Z * Z))) :=
  player_data fs player_dir "fielder.csv" team valid fielder_dismissals.

Definition fielder_total (r : string * (Z * Z * Z)) : Z := fst (fst (snd r)).

(** [pd.DataFrame(data).sort_values(key, ascending=False).head(10)], kept as
    the list of its rows. *)
Definition top10 {A} (key : A -> Z) (data : list A) : list A :=
  firstn 10 (sort_values_desc key data).

Definition run_df fs player_dir team valid : result (list (string * Z)) :=
  (data <- run_data fs player_dir team valid ;; Ok (top10 snd data))%result.

Definition wk_df fs player_dir team valid : result (list (string * Z)) :=
  (data <- wk_data fs player_dir team valid ;; Ok (top10 snd data))%result.

Definition fld_df fs player_dir team valid
  : result (list (string * (Z * Z * Z))) :=
  (data <- fld_data fs player_dir team valid ;;
   Ok (top10 fielder_total data))%result.

(** ** Aggregates over the matches table *)

Definition margin_columns : list string :=
  ["outcome.winner"; "outcome.by.wickets"; "outcome.by.runs"; "outcome.result"].

(** Line 163. *)
Definition margin_df (matches_df : DataFrame) : result DataFrame :=
  (sel <- select_cols matches_df margin_columns ;;
   Ok (dropna_all sel))%result.

Definition toss_decision_counts (info_df : DataFrame)
  : result (list (val * val * Z)) :=
  (a <- col info_df "toss_winner" ;;
   b <- col info_df "toss_decision" ;;
   Ok (groupby_size a b))%result.

(** ** [show_dashboard] *)

Definition arc_encoding (c : string) : list (string * string) :=
  [("theta", "count:Q"); ("color", (c ++ ":N")%string)].

(** A [value_counts] pie chart followed by its table (lines 59-60, 66-67,
    73-74). *)
Definition pie_and_table (c : string) (counts : list (val * Z)) : render unit :=
  (st (altair_chart "arc" (arc_encoding c) (CountTable c "count" counts)) ;;
   st (table (CountTable c "count" counts)))%render.

(** Lines 55-84. *)
Definition ball_sections (ball_df : DataFrame) : render unit :=
  (st (subheader "📊 Runs Distribution (0,1,2,3,4,6)") ;;
   runs_counts <- eval (runs_distribution ball_df) ;;
   pie_and_table "runs_batter" runs_counts ;;
   st (subheader "📊 Wicket Types") ;;
   wk_counts <- eval (counts_of ball_df "wicket_type") ;;
   pie_and_table "wicket_type" wk_counts ;;
   st (subheader "📊 Extras Types") ;;
   ex_counts <- eval (counts_of ball_df "extras_type") ;;
   pie_and_table "extras_type" ex_counts ;;
   st (subheader "📋 Totals") ;;
   t <- eval (totals ball_df) ;;
   st (table (ScoreTable "Metric" "Value" t)))%render.

(** Lines 86-126. *)
Definition player_sections (fs : FS) (player_dir : string)
    (team : option string) (valid : option (list cell)) : render unit :=
  (st (subheader "🏏 Top 10 Run Scorers") ;;
   runs <- eval (run_df fs player_dir team valid) ;;
   st (bar_chart (ScoreTable "player" "runs" runs)) ;;
   st (subheader "🎯 Top 10 Wicket Takers") ;;
   wickets <- eval (wk_df fs player_dir team valid) ;;
   st (bar_chart (ScoreTable "player" "wickets" wickets)) ;;
   st (subheader "👐 Top 10 Fielders (Catches + Runouts)") ;;
   fielders <- eval (fld_df fs player_dir team valid) ;;
   st (bar_chart (ScoreTable "player" "total"
                    (map (fun r => (fst r, fielder_total r)) fielders))) ;;
   st (table (FielderTable fielders)))%render.

Definition toss_chart_encoding : list (string * string) :=
  [("x", "toss_winner:N"); ("y", "count:Q"); ("color", "toss_decision:N");
   ("title", "Toss Decision by Team")].

(** Lines 128-143. *)
Definition toss_sections (info_df : DataFrame) : render unit :=
  if negb (empty info_df) then
    (st (subheader "🪙 Toss Wins by Team") ;;
     toss_counts <- eval (counts_of info_df "toss_winner") ;;
     st (bar_chart (CountTable "team" "count" toss_counts)) ;;
     st (table (CountTable "team" "count" toss_counts)) ;;
     st (subheader "🪙 Toss Decision (Bat/Field) by Team") ;;
     if has_col info_df "toss_winner" && has_col info_df "toss_decision" then
       (decisions <- eval (toss_decision_counts info_df) ;;
        let v := GroupTable "toss_winner" "toss_decision" "count" decisions in
        st (altair_chart "bar" toss_chart_encoding v) ;;
        st (table v))
     else pass)%render
  else pass.

Definition awards_title : string := "🌟 Player of the Match Awards".
Definition margins_title : string := "📋 Win Margins".

(** Lines 145-151. *)
Definition awards_section (matches_df : DataFrame) : render unit :=
  if negb (empty matches_df) && has_col matches_df "player_of_match" then
    (st (subheader awards_title) ;;
     pom_counts <- eval (counts_of matches_df "player_of_match") ;;
     st (bar_chart (CountTable "player" "count" (firstn 10 pom_counts))) ;;
     st (table (CountTable "player" "count" pom_counts)))%render
  else pass.

(** Lines 161-164. *)
Definition margins_section (matches_df : DataFrame) : render unit :=
  if has_col matches_df "outcome.by.wickets"
     || has_col matches_df "outcome.by.runs" then
    (st (subheader margins_title) ;;
     m <- eval (margin_df matches_df) ;;
     st (table (FrameView (head 20 m))))%render
  else pass.

(** Lines 153-164. *)
Definition winners_section (matches_df : DataFrame) : render unit :=
  if negb (empty matches_df) && has_col matches_df "outcome.winner" then
    (st (subheader "🏆 Match Winners") ;;
     win_counts <- eval (counts_of matches_df "outcome.winner") ;;
     st (bar_chart (CountTable "team" "wins" win_counts)) ;;
     st (table (CountTable "team" "wins" win_counts)) ;;
     margins_section matches_df)%render
  else pass.

Definition header_text (title : string) (team : option string) : string :=
  ("📊 " ++ title ++
   (if truthy team then " - " ++ team_text team else ""))%string.

(** Lines 38-49: the three tables of a category, after the team filter. *)
Definition load_tables (fs : FS) (folder : string) (team : option string)
  : result (option (list cell) * DataFrame * DataFrame * DataFrame) :=
  (ball_df <- load_csv fs (path_join BASE_PATH [folder; "ballbyball.csv"]) ;;
   info_df <- load_csv fs (path_join BASE_PATH [folder; "info_summary.csv"]) ;;
   matches_df <- load_csv fs (path_join BASE_PATH
                                [folder; (folder ++ "_matches.csv")%string]) ;;
   team_filter team ball_df info_df matches_df)%result.

(** Lines 36-143: everything up to the toss analysis; yields the matches
    table the last two sections work on. *)
Definition dashboard_upto_toss (fs : FS) (folder title : string)
    (team : option string) : render DataFrame :=
  (st (header (header_text title team)) ;;
   t <- eval (load_tables fs folder team) ;;
   let valid_match_ids := fst (fst (fst t)) in
   let ball_df := snd (fst (fst t)) in
   let info_df := snd (fst t) in
   let matches_df := snd t in
   let player_dir := path_join BASE_PATH [folder; "player"] in
   if empty ball_df then
     (st (warning "No ball-by-ball data available for this selection.") ;;
      ([], Return))
   else
     (ball_sections ball_df ;;
      player_sections fs player_dir team valid_match_ids ;;
      toss_sections info_df ;;
      ([], Next matches_df)))%render.

Definition show_dashboard (fs : FS) (folder title : string)
    (team : option string) : render unit :=
  (matches_df <- dashboard_upto_toss fs folder title team ;;
   awards_section matches_df ;;
   winners_section matches_df)%render.

Definition output {A} (r : render A) : list widget := fst r.
Definition ending {A} (r : render A) : flow A := snd r.

(** ** Sample data

    A small category with two matches and two players, used to run the
    definitions on concrete inputs. *)

Module Sample.

Definition ball : DataFrame :=
  [ ("match_id", IntS [Some 1; Some 1; Some 2]%Z);
    ("runs_batter", IntS [Some 4; Some 0; Some 6]%Z);
    ("runs_extras", IntS [Some 0; Some 1; Some 0]%Z);
    ("runs_total", IntS [Some 4; Some 1; Some 6]%Z);
    ("wicket_type", StrS [None; Some "caught"; None]);
    ("extras_type", StrS [None; Some "wides"; None]) ].

(** The ball-events table of the specification's scenario: two columns only. *)
Definition ball_scenario : DataFrame :=
  [ ("match_id", IntS [Some 1; Some 1; Some 2]%Z);
    ("runs_batter", IntS [Some 4; Some 0; Some 6]%Z) ].

(** A ball-events table without its [runs_total] column. *)
Definition ball_no_total : DataFrame :=
  [ ("match_id", IntS [Some 1; Some 1; Some 2]%Z);
    ("runs_batter", IntS [Some 4; Some 0; Some 6]%Z);
    ("runs_extras", IntS [Some 0; Some 1; Some 0]%Z);
    ("wicket_type", StrS [None; Some "caught"; None]);
    ("extras_type", StrS [None; Some "wides"; None]) ].

Definition info : DataFrame :=
  [ ("match_id", IntS [Some 1; Some 2]%Z);
    ("toss_winner", StrS [Some "India"; Some "Australia"]);
    ("toss_decision", StrS [Some "bat"; Some "field"]) ].

Definition matches : DataFrame :=
  [ ("match_id", IntS [Some 1; Some 2]%Z);
    ("teams", StrS [Some "India vs Australia"; Some "England vs Australia"]);
    ("player_of_match", StrS [Some "V Kohli"; Some "JE Root"]);
    ("outcome.winner", StrS [Some "India"; Some "England"]);
    ("outcome.by.wickets", FloatS [None; Some 5]%Z);
    ("outcome.by.runs", FloatS [Some 12; None]%Z);
    ("outcome.result", FloatS [None; None]) ].

(** The same matches, from a category in which every win was by runs: the
    export has no [outcome.by.wickets] column. *)
Definition matches_by_runs : DataFrame :=
  [ ("match_id", IntS [Some 1; Some 2]%Z);
    ("teams", StrS [Some "India vs Australia"; Some "England vs Australia"]);
    ("outcome.winner", StrS [Some "India"; Some "England"]);
    ("outcome.by.runs", IntS [Some 12; Some 3]%Z);
    ("outcome.result", FloatS [None; None]) ].

(** A match list in which one team's name is written with dots. *)
Definition matches_dotted : DataFrame :=
  [ ("match_id", IntS [Some 1; Some 2]%Z);
    ("teams", StrS [Some "U.A.E vs Oman"; Some "USA Eagles vs Canada"]) ].

Definition kohli_batter : DataFrame :=
  [ ("match_id", IntS [Some 1; Some 1]%Z);
    ("runs_batter", IntS [Some 4; Some 0]%Z) ].

Definition root_batter : DataFrame :=
  [ ("match_id", IntS [Some 2]%Z);
    ("runs_batter", IntS [Some 6]%Z) ].

Definition root_bowler : DataFrame :=
  [ ("match_id", IntS [Some 1; Some 1]%Z);
    ("wicket_type", StrS [None; Some "caught"]) ].

Definition kohli_fielder : DataFrame :=
  [ ("match_id", IntS [Some 1; Some 2; Some 2]%Z);
    ("wicket_type", StrS [Some "caught"; Some "run out"; Some "stumped"]) ].

Definition players (folder : string) : FS :=
  let p := path_join BASE_PATH [folder; "player"] in
  [ (p, Dir ["V Kohli"; "JE Root"]);
    (path_join p ["V Kohli"], Dir ["batter.csv"; "fielder.csv"]);
    (path_join p ["JE Root"], Dir ["batter.csv"; "bowler.csv"]);
    (path_join p ["V Kohli"; "batter.csv"], File (Ok kohli_batter));
    (path_join p ["V Kohli"; "fielder.csv"], File (Ok kohli_fielder));
    (path_join p ["JE Root"; "batter.csv"], File (Ok root_batter));
    (path_join p ["JE Root"; "bowler.csv"], File (Ok root_bowler)) ].

Definition category (folder : string) (b i m : option DataFrame) : FS :=
  let at_ name o :=
    match o with
    | Some df => [(path_join BASE_PATH [folder; name], File (Ok df))]
    | None => []
    end in
  at_ "ballbyball.csv" b ++ at_ "info_summary.csv" i
    ++ at_ (folder ++ "_matches.csv")%string m ++ players folder.

(** A complete category. *)
Definition fs : FS := category "t20s_json" (Some ball) (Some info) (Some matches).

(** No ball-by-ball export. *)
Definition fs_no_ball : FS := category "t20s_json" None (Some info) (Some matches).

(** No match list. *)
Definition fs_no_matches : FS := category "t20s_json" (Some ball) (Some info) None.

(** No toss summary. *)
Definition fs_no_info : FS := category "t20s_json" (Some ball) None (Some matches).

(** Dotted team names. *)
Definition fs_dotted : FS :=
  category "t20s_json" (Some ball) (Some info) (Some matches_dotted).

(** Every win by runs. *)
Definition fs_by_runs : FS :=
  category "t20s_json" (Some ball) (Some info) (Some matches_by_runs).

End Sample.

(** ** Notions used in the statements *)

(** A list of rows whose keys never increase from one row to the next. *)
Definition non_increasing {A} (key : A -> Z) (l : list A) : Prop :=
  StronglySorted (fun a b => (key b <= key a)%Z) l.

(** Number of cells of a column that hold the value [k]. *)
Definition occurrences (k : val) (s : Series) : Z :=
  Z.of_nat (List.length (filter (fun c => cell_eqb c (Some k)) (values s))).

Definition total (l : list Z) : Z := fold_right Z.add 0%Z l.

(** The widgets of the "Player of the Match Awards" section. *)
Definition is_awards_widget (w : widget) : bool :=
  match w with
  | subheader t => String.eqb t awards_title
  | bar_chart (CountTable k v _) => String.eqb k "player" && String.eqb v "count"
  | table (CountTable k v _) => String.eqb k "player" && String.eqb v "count"
  | _ => false
  end.

Definition not_awards (w : widget) : Prop := is_awards_widget w = false.

(** The path of a category's match list (line 40). *)
Definition matches_path (folder : string) : string :=
  path_join BASE_PATH [folder; (folder ++ "_matches.csv")%string].

(** The path of a category's player directory (line 41). *)
Definition player_path (folder : string) : string :=
  path_join BASE_PATH [folder; "player"].

(** The mask [str.contains] computes on a text column for a pattern of the
    modelled fragment. *)
Definition contains_mask (pat : string) (xs : list (option string)) : list bool :=
  map (fun x => match x with
                | Some t => search pat t
                | None => false
                end) xs.

(** ** The page script (lines 166-186)

    Streamlit runs the script from top to bottom on every interaction.  A
    select box returns the entry the user picked; the choice is modelled by
    its position in the list of options, a position past the end standing
    for the first entry (the empty string every list starts with). *)

Inductive page_item : Type :=
| set_page_config (page_title layout : string)
| title (text : string)
| selectbox (label : string) (options shown : list string)
| info (text : string)
| dashboard (w : widget).

Definition script (A : Type) : Type := (list page_item * flow A)%type.

Definition sbind {A B} (m : script A) (k : A -> script B) : script B :=
  match m with
  | (out, Next a) => (out ++ fst (k a), snd (k a))
  | (out, Return) => (out, Return)
  | (out, Throw e) => (out, Throw e)
  end.

Definition say (i : page_item) : script unit := ([i], Next tt).

Definition attempt {A} (r : result A) : script A :=
  match r with
  | Ok a => ([], Next a)
  | Raise e => ([], Throw e)
  end.

(** A call of [show_dashboard]: its widgets go to the page, its [return]
    ends the call only. *)
Definition call (r : render unit) : script unit :=
  (map dashboard (fst r),
   match snd r with
   | Next _ => Next tt
   | Return => Next tt
   | Throw e => Throw e
   end).

Declare Scope script_scope.
Delimit Scope script_scope with script.
Notation "x <- m ;; k" := (sbind m (fun x => k))
  (at level 61, m at next level, right associativity) : script_scope.
Notation "m ;; k" := (sbind m (fun _ => k))
  (at level 61, right associativity) : script_scope.

(** Truth value of a string. *)
Definition nonempty (s : string) : bool := negb (String.eqb s "").

Fixpoint assoc (k : string) (d : list (string * string)) : option string :=
  match d with
  | [] => None
  | (k', v) :: d' => if String.eqb k' k then Some v else assoc k d'
  end.

(** [SUBFOLDERS.get(x, "")] *)
Definition subfolder_label (x : string) : string :=
  match assoc x SUBFOLDERS with
  | Some l => l
  | None => ""
  end.

(** [SUBFOLDERS[x]] *)
Definition subfolder_title (x : string) : result string :=
  match assoc x SUBFOLDERS with
  | Some l => Ok l
  | None => Raise (KeyError [x])
  end.

Definition PAGE_TITLE : string := "🏏 Cricket Dashboard 2001 to 2025".

Definition player_heading (player team category : string) : string :=
  ("⭐ Player Analysis: " ++ player ++ " (" ++ team ++ ", " ++ category ++ ")")%string.

(** Lines 174-186. *)
Definition dispatch (fs : FS) (match_type team player : string) : script unit :=
  if negb (nonempty match_type) && negb (nonempty team) && negb (nonempty player)
  then call (show_dashboard fs "all_json" "All International Matches" None)
  else if nonempty match_type && negb (nonempty team) && negb (nonempty player)
  then (t <- attempt (subfolder_title match_type) ;;
        call (show_dashboard fs match_type t None))%script
  else if nonempty match_type && nonempty team && negb (nonempty player)
  then (t <- attempt (subfolder_title match_type) ;;
        call (show_dashboard fs match_type t (Some team)))%script
  else if nonempty match_type && nonempty team && nonempty player
  then (t <- attempt (subfolder_title match_type) ;;
        say (dashboard (header (player_heading player team t))) ;;
        say (info "Player-specific charts coming soon!"))%script
  else ([], Next tt).

Definition type_options : list string := "" :: map fst SUBFOLDERS.

(** Lines 170-171: the team offered for a category and a pick. *)
Definition team_options (fs : FS) (match_type : string) : result (list string) :=
  (teams <- (if nonempty match_type then get_teams fs match_type else Ok []) ;;
   Ok ("" :: teams))%result.

(** Line 172. *)
Definition player_options (fs : FS) (match_type team : string)
  : result (list string) :=
  (players <- (if nonempty match_type
               then get_players fs match_type (Some team) else Ok []) ;;
   Ok ("" :: players))%result.

(** Lines 167-186. *)
Definition page (fs : FS) (pick_type pick_team pick_player : nat) : script unit :=
  (say (set_page_config PAGE_TITLE "wide") ;;
   say (title PAGE_TITLE) ;;
   say (selectbox "Select Match Type" type_options
          (map subfolder_label type_options)) ;;
   let match_type := nth pick_type type_options "" in
   teams <- attempt (team_options fs match_type) ;;
   say (selectbox "Select Team" teams teams) ;;
   let team := nth pick_team teams "" in
   players <- attempt (player_options fs match_type team) ;;
   say (selectbox "Select Player" players players) ;;
   let player := nth pick_player players "" in
   dispatch fs match_type team player)%script.

(** The three select boxes, as they stand before the dispatch. *)
Definition page_controls (teams players : list string) : list page_item :=
  [ set_page_config PAGE_TITLE "wide";
    title PAGE_TITLE;
    selectbox "Select Match Type" type_options (map subfolder_label type_options);
    selectbox "Select Team" teams teams;
    selectbox "Select Player" players players ].

(** ** Further notions used in the statements *)

Definition ball_path (folder : string) : string :=
  path_join BASE_PATH [folder; "ballbyball.csv"].

Definition info_path (folder : string) : string :=
  path_join BASE_PATH [folder; "info_summary.csv"].

Definition team_path (folder : string) : string :=
  path_join BASE_PATH [folder; "team"].

Definition no_data_warning : widget :=
  warning "No ball-by-ball data available for this selection.".

Definition winners_title : string := "🏆 Match Winners".
Definition toss_wins_title : string := "🪙 Toss Wins by Team".
Definition toss_decision_title : string := "🪙 Toss Decision (Bat/Field) by Team".

(** [w] is not the heading [t]. *)
Definition not_heading (t : string) (w : widget) : Prop :=
  match w with
  | subheader s => String.eqb s t = false
  | _ => True
  end.

Definition not_warning (w : widget) : Prop :=
  match w with
  | warning _ => False
  | _ => True
  end.

(** [sums_to s z]: adding the numeric column [s] the way pandas does gives
    [z].  An int64 column adds in int64 and wraps; a float64 column adds
    exactly as long as the magnitudes of its cells add up to at most
    [2^53]. *)
Inductive sums_to : Series -> Z -> Prop :=
| sums_int64 (xs : list (option Z)) :
    sums_to (IntS xs) (wrap64 (sum_cells xs))
| sums_float64 (xs : list (option Z)) :
    (abs_total xs <= 2 ^ 53)%Z ->
    sums_to (FloatS xs) (sum_cells xs).

(** The three widgets of the awards section (lines 147-151) for the column
    [s]: the heading, the bar chart of the first ten counts, the table of
    all counts. *)
Definition awards_widgets (s : Series) : list widget :=
  [ subheader awards_title;
    bar_chart (CountTable "player" "count" (firstn 10 (value_counts s)));
    table (CountTable "player" "count" (value_counts s)) ].

(** Number of rows in which the two columns hold [w] and [d]. *)
Definition pair_occurrences (w d : val) (a b : Series) : Z :=
  Z.of_nat (List.length
    (filter (fun p => cell_eqb (fst p) (Some w) && cell_eqb (snd p) (Some d))
            (combine (values a) (values b)))).

(** [board] holds the best rows of [data]: the rows left off make up the
    rest of [data], none of them beats a listed row, and nothing is left
    off when [data] has at most ten rows. *)
Definition best_of {A} (key : A -> Z) (data board : list A) : Prop :=
  exists rest,
    Permutation data (board ++ rest) /\
    (forall r r', In r board -> In r' rest -> (key r' <= key r)%Z) /\
    (List.length data <= 10 -> rest = []).

(** Number of rows in which both keys of a grouping are present. *)
Definition rows_with_both (a b : Series) : Z :=
  Z.of_nat (List.length (zip_keys (values a) (values b))).

(** The players a loop keeps: the listed entries that have the file. *)
Definition with_file (fs : FS) (player_dir file : string) (names : list string)
  : list string :=
  filter (fun p => path_exists fs (path_join player_dir [p; file])) names.

(** A second sample: the complete category of [Sample], with its team
    directory. *)
Module SamplePage.

Definition teams : FS :=
  let t := path_join BASE_PATH ["t20s_json"; "team"] in
  [ (t, Dir ["India"; "notes.txt"; "Australia"]);
    (path_join t ["India"], Dir []);
    (path_join t ["notes.txt"], File (Raise (ParserError "not a table")));
    (path_join t ["Australia"], Dir []) ].

Definition fs : FS := Sample.fs ++ teams.

(** A category whose [team] entry is a regular file. *)
Definition fs_team_is_file : FS :=
  (path_join BASE_PATH ["t20s_json"; "team"], File (Ok empty_frame)) :: Sample.fs.

(** A category with an unreadable ball-by-ball export. *)
Definition fs_bad_ball : FS :=
  (path_join BASE_PATH ["t20s_json"; "ballbyball.csv"],
   File (Raise (ParserError "Error tokenizing data"))) :: Sample.fs.

(** An info table without the toss columns. *)
Definition info_no_toss : DataFrame :=
  [ ("match_id", IntS [Some 1; Some 2]%Z);
    ("venue", StrS [Some "Pune"; Some "Leeds"]) ].

(** An info table without the decision column. *)
Definition info_no_decision : DataFrame :=
  [ ("match_id", IntS [Some 1; Some 2]%Z);
    ("toss_winner", StrS [Some "India"; Some "Australia"]) ].

(** A match list with margins but no winner column. *)
Definition matches_no_winner : DataFrame :=
  [ ("match_id", IntS [Some 1; Some 2]%Z);
    ("teams", StrS [Some "India vs Australia"; Some "England vs Australia"]);
    ("outcome.by.wickets", FloatS [None; Some 5]%Z);
    ("outcome.by.runs", FloatS [Some 12; None]%Z);
    ("outcome.result", FloatS [None; None]) ].

Definition fs_no_winner : FS :=
  Sample.category "t20s_json" (Some Sample.ball) (Some Sample.info)
    (Some matches_no_winner).

(** A match list with its header line only: every column, no row. *)
Definition matches_header_only : DataFrame :=
  [ ("match_id", StrS []);
    ("teams", StrS []);
    ("player_of_match", StrS []) ].

Definition fs_header_only : FS :=
  Sample.category "t20s_json" (Some Sample.ball) (Some Sample.info)
    (Some matches_header_only).

(** A ball-events table whose total runs do not fit in int64. *)
Definition ball_wrapping : DataFrame :=
  [ ("match_id", IntS [Some 1; Some 1]%Z);
    ("runs_total", IntS [Some 4611686018427387904;
                         Some 4611686018427387904]%Z);
    ("runs_extras", IntS [Some 0; Some 0]%Z);
    ("wicket_type", FloatS [None; None]) ].

(** A match list in which one match id is entered twice. *)
Definition matches_repeated : DataFrame :=
  [ ("match_id", IntS [Some 1; Some 1; Some 2]%Z);
    ("teams", StrS [Some "India vs Australia"; Some "Kenya vs Oman";
                    Some "England vs Australia"]) ].

End SamplePage.

(* ================================================================= *)
(** * Part II: properties *)
(* ================================================================= *)

(** ** The result monad and the writer *)

Lemma rbind_ok {A B} (r : result A) (k : A -> result B) (b : B) :
  rbind r k = Ok b -> exists a, r = Ok a /\ k a = Ok b.
Proof.
  destruct r as [a|e]; simpl; intros H.
  - exists a. split; [reflexivity | exact H].
  - discriminate H.
Qed.

Lemma output_bind {A B} (m : render A) (k : A -> render B) (w : widget) :
  In w (fst (bind m k)) <->
  In w (fst m) \/ exists a, snd m = Next a /\ In w (fst (k a)).
Proof.
  destruct m as [out [a| |e]]; simpl.
  - rewrite in_app_iff. split.
    + intros [H|H]; [left; exact H | right; exists a; split; [reflexivity | exact H]].
    + intros [H|[a' [E H]]]; [left; exact H | right].
      inversion E; subst. exact H.
  - split; [intros H; left; exact H | intros [H|[a [E _]]]; [exact H | discriminate E]].
  - split; [intros H; left; exact H | intros [H|[a [E _]]]; [exact H | discriminate E]].
Qed.

Lemma ending_bind_next {A B} (m : render A) (k : A -> render B) (b : B) :
  snd (bind m k) = Next b <-> exists a, snd m = Next a /\ snd (k a) = Next b.
Proof.
  destruct m as [out [a| |e]]; simpl.
  - split.
    + intros H. exists a. split; [reflexivity | exact H].
    + intros [a' [E H]]. inversion E; subst. exact H.
  - split; [discriminate | intros [a [E _]]; discriminate E].
  - split; [discriminate | intros [a [E _]]; discriminate E].
Qed.

Lemma Forall_output_bind {A B} (P : widget -> Prop) (m : render A)
    (k : A -> render B) :
  Forall P (fst m) -> (forall a, Forall P (fst (k a))) ->
  Forall P (fst (bind m k)).
Proof.
  intros Hm Hk. destruct m as [out [a| |e]]; simpl in *; try exact Hm.
  apply Forall_app. split; [exact Hm | apply Hk].
Qed.

Lemma Forall_output_eval {A} (P : widget -> Prop) (r : result A) :
  Forall P (fst (eval r)).
Proof. destruct r; simpl; constructor. Qed.

Lemma Forall_output_st (P : widget -> Prop) (w : widget) :
  P w -> Forall P (fst (st w)).
Proof. intros H. simpl. constructor; [exact H | constructor]. Qed.

(** ** Frames *)

Lemma val_eqb_eq (a b : val) : val_eqb a b = true <-> a = b.
Proof.
  destruct a as [x|x], b as [y|y]; simpl.
  - rewrite Z.eqb_eq. split; [intros ->; reflexivity | intros H; inversion H; reflexivity].
  - split; discriminate.
  - split; discriminate.
  - rewrite String.eqb_eq. split; [intros ->; reflexivity | intros H; inversion H; reflexivity].
Qed.

Lemma cell_eqb_eq (a b : cell) : cell_eqb a b = true <-> a = b.
Proof.
  destruct a as [x|], b as [y|]; simpl.
  - rewrite val_eqb_eq. split; [intros ->; reflexivity | intros H; inversion H; reflexivity].
  - split; discriminate.
  - split; discriminate.
  - split; reflexivity.
Qed.

Lemma values_length (s : Series) : List.length (values s) = size s.
Proof. destruct s; simpl; apply length_map. Qed.

Lemma find_col_in (df : DataFrame) (c : string) (s : Series) :
  find_col df c = Some s -> In (c, s) df.
Proof.
  induction df as [|[n s'] df IH]; simpl; [discriminate|].
  destruct (String.eqb n c) eqn:E.
  - apply String.eqb_eq in E. intros H. inversion H; subst. left. reflexivity.
  - intros H. right. apply IH. exact H.
Qed.

Lemma col_ok (df : DataFrame) (c : string) (s : Series) :
  col df c = Ok s <-> find_col df c = Some s.
Proof.
  unfold col. destruct (find_col df c).
  - split; intros H; inversion H; reflexivity.
  - split; discriminate.
Qed.

Lemma col_absent (df : DataFrame) (c : string) :
  has_col df c = false -> col df c = Raise (KeyError [c]).
Proof.
  unfold has_col, col. destruct (find_col df c); [discriminate | reflexivity].
Qed.

Lemma col_present (df : DataFrame) (c : string) (s : Series) :
  col df c = Ok s -> has_col df c = true.
Proof.
  unfold has_col, col. destruct (find_col df c); [reflexivity | discriminate].
Qed.

Lemma find_col_mask_rows (mask : list bool) (df : DataFrame) (c : string) :
  find_col (mask_rows mask df) c = option_map (series_mask mask) (find_col df c).
Proof.
  induction df as [|[n s] df IH]; simpl; [reflexivity|].
  destruct (String.eqb n c); [reflexivity | exact IH].
Qed.

Lemma has_col_mask_rows (mask : list bool) (df : DataFrame) (c : string) :
  has_col (mask_rows mask df) c = has_col df c.
Proof.
  unfold has_col. rewrite find_col_mask_rows.
  destruct (find_col df c); reflexivity.
Qed.

Lemma col_mask_rows (mask : list bool) (df : DataFrame) (c : string) (s : Series) :
  col df c = Ok s -> col (mask_rows mask df) c = Ok (series_mask mask s).
Proof.
  rewrite !col_ok, find_col_mask_rows. intros ->. reflexivity.
Qed.

Lemma select_mask_map {A B} (f : A -> B) (mask : list bool) (xs : list A) :
  select_mask mask (map f xs) = map f (select_mask mask xs).
Proof.
  revert xs. induction mask as [|b m IH]; intros [|x xs]; simpl; try reflexivity.
  destruct b; simpl; rewrite IH; reflexivity.
Qed.

Lemma values_series_mask (mask : list bool) (s : Series) :
  values (series_mask mask s) = select_mask mask (values s).
Proof. destruct s; simpl; symmetry; apply select_mask_map. Qed.

(** ** C8: the loader *)

(** C8.  [load_csv] hands back what [pd.read_csv] yields when the path
    exists, in particular the parsed table of a readable file; for a path
    that does not exist it returns [pd.DataFrame()], a table with no row and
    no column, and never raises. *)
Theorem load_csv_missing_is_empty (fs : FS) (path : string) :
  (path_exists fs path = true -> load_csv fs path = read_csv fs path) /\
  (forall df, lookup fs path = Some (File (Ok df)) -> load_csv fs path = Ok df) /\
  (path_exists fs path = false ->
   load_csv fs path = Ok empty_frame /\
   len empty_frame = 0 /\ columns empty_frame = [] /\
   forall e, load_csv fs path <> Raise e).
Proof.
  unfold load_csv, read_csv, path_exists. repeat split.
  - intros H. rewrite H. reflexivity.
  - intros df H. rewrite H. reflexivity.
  - destruct (lookup fs path); [discriminate | reflexivity].
  - destruct (lookup fs path); [discriminate|]. discriminate.
Qed.

Lemma load_csv_missing_is_empty_witness :
  load_csv Sample.fs (matches_path "t20s_json") = Ok Sample.matches /\
  load_csv Sample.fs (matches_path "ipl_json") = Ok empty_frame.
Proof.
  split.
  - apply (load_csv_missing_is_empty Sample.fs (matches_path "t20s_json")).
    reflexivity.
  - apply (load_csv_missing_is_empty Sample.fs (matches_path "ipl_json")).
    reflexivity.
Defined.

(** ** C10: listing players *)

(** C10.  [get_players] never looks at its [team] argument: two calls for
    the same category return the same list whatever the two team values
    are ([None] included), as soon as the player directory of the category
    has the same entries and the same sub-directories in both calls. *)
Theorem get_players_ignores_team (fs fs' : FS) (folder : string)
    (team team' : option string) :
  lookup fs (player_path folder) = lookup fs' (player_path folder) ->
  (forall es d, lookup fs (player_path folder) = Some (Dir es) -> In d es ->
     isdir fs (path_join (player_path folder) [d])
     = isdir fs' (path_join (player_path folder) [d])) ->
  get_players fs folder team = get_players fs' folder team'.
Proof.
  unfold get_players, path_exists, listdir. fold (player_path folder).
  intros Hdir Hsub. rewrite <- Hdir.
  destruct (lookup fs (player_path folder)) as [[es|r]|] eqn:E; simpl;
    try reflexivity.
  f_equal. apply filter_ext_in. intros d Hd. apply (Hsub es d eq_refl Hd).
Qed.

Lemma get_players_ignores_team_witness :
  get_players Sample.fs "t20s_json" None
  = get_players Sample.fs "t20s_json" (Some "India").
Proof.
  apply (get_players_ignores_team Sample.fs Sample.fs "t20s_json" None
           (Some "India")).
  - reflexivity.
  - intros es d _ _. reflexivity.
Defined.

(** ** Sorting and the top-ten cut *)

Section Sorting.

Context {A : Type} (before : A -> A -> bool).

Lemma insert_by_perm (x : A) (l : list A) :
  Permutation (insert_by before x l) (x :: l).
Proof.
  induction l as [|y l IH]; simpl.
  - apply Permutation_refl.
  - destruct (before x y).
    + apply Permutation_refl.
    + eapply Permutation_trans; [apply perm_skip, IH | apply perm_swap].
Qed.

Lemma sort_by_perm (l : list A) : Permutation (sort_by before l) l.
Proof.
  induction l as [|x l IH]; simpl.
  - apply Permutation_refl.
  - eapply Permutation_trans; [apply insert_by_perm | apply perm_skip, IH].
Qed.

End Sorting.

Section Descending.

Context {A : Type} (key : A -> Z).

Lemma insert_desc_sorted (x : A) (l : list A) :
  non_increasing key l ->
  non_increasing key (insert_by (fun x y => Z.leb (key y) (key x)) x l).
Proof.
  unfold non_increasing.
  induction 1 as [|y l Hs IH Hy]; simpl.
  - constructor; constructor.
  - destruct (Z.leb (key y) (key x)) eqn:E.
    + apply Z.leb_le in E. constructor.
      * constructor; assumption.
      * constructor; [exact E|].
        eapply Forall_impl; [|exact Hy].
        intros z Hz. simpl in *. lia.
    + apply Z.leb_gt in E. constructor; [exact IH|].
      eapply Permutation_Forall.
      * apply Permutation_sym, insert_by_perm.
      * constructor; [lia | exact Hy].
Qed.

Lemma sort_values_desc_sorted (l : list A) :
  non_increasing key (sort_values_desc key l).
Proof.
  unfold non_increasing, sort_values_desc, sort_by.
  induction l as [|x l IH]; simpl.
  - constructor.
  - apply insert_desc_sorted. exact IH.
Qed.

Lemma non_increasing_firstn (n : nat) (l : list A) :
  non_increasing key l -> non_increasing key (firstn n l).
Proof.
  unfold non_increasing. intros H. revert n.
  induction H as [|x l Hs IH Hx]; intros [|n]; simpl; try constructor.
  - apply IH.
  - apply Forall_forall. intros y Hy.
    rewrite Forall_forall in Hx. apply Hx.
    eapply (In_nth_error) in Hy. destruct Hy as [i Hi].
    apply nth_error_In with (n := i).
    rewrite nth_error_firstn in Hi.
    destruct (Nat.ltb i n); [exact Hi | discriminate Hi].
Qed.

(** The leaderboard of any list of rows: sorted, at most ten rows, and made
    of rows of the list. *)
Lemma top10_spec (data : list A) :
  non_increasing key (top10 key data) /\
  List.length (top10 key data) <= 10 /\
  (forall r, In r (top10 key data) -> In r data).
Proof.
  unfold top10. repeat split.
  - apply non_increasing_firstn, sort_values_desc_sorted.
  - apply firstn_le_length.
  - intros r Hr.
    assert (Hin : In r (sort_values_desc key data)).
    { rewrite <- (firstn_skipn 10 (sort_values_desc key data)).
      apply in_or_app. left. exact Hr. }
    eapply Permutation_in; [apply sort_by_perm | exact Hin].
Qed.

End Descending.

(** ** The per-player loops *)

Section PlayerLoop.

Context {A : Type} (fs : FS) (player_dir file : string)
        (team : option string) (valid : option (list cell))
        (metric : DataFrame -> result A).

(** Every row a loop appends comes from the file of that player: the file
    exists, loads, passes the team restriction, and the row holds the metric
    of the restricted table. *)
Lemma player_loop_rows (names : list string) (data : list (string * A)) :
  player_loop fs player_dir file team valid metric names = Ok data ->
  forall p x, In (p, x) data ->
    In p names /\
    exists raw df,
      load_csv fs (path_join player_dir [p; file]) = Ok raw /\
      restrict_team team valid raw = Ok df /\
      metric df = Ok x.
Proof.
  revert data.
  induction names as [|n names IH]; cbn [player_loop]; intros data H p x Hin.
  - inversion H; subst. destruct Hin.
  - destruct (path_exists fs (path_join player_dir [n; file])).
    + apply rbind_ok in H. destruct H as [raw [Hraw H]].
      apply rbind_ok in H. destruct H as [df [Hdf H]].
      apply rbind_ok in H. destruct H as [y [Hy H]].
      apply rbind_ok in H. destruct H as [rest [Hrest H]].
      inversion H; subst. destruct Hin as [Hin|Hin].
      * inversion Hin; subst. split; [left; reflexivity|].
        exists raw, df. repeat split; assumption.
      * destruct (IH rest Hrest p x Hin) as [Hp Hex].
        split; [right; exact Hp | exact Hex].
    + destruct (IH data H p x Hin) as [Hp Hex].
      split; [right; exact Hp | exact Hex].
Qed.

Lemma player_data_rows (data : list (string * A)) :
  player_data fs player_dir file team valid metric = Ok data ->
  forall p x, In (p, x) data ->
    exists raw df,
      load_csv fs (path_join player_dir [p; file]) = Ok raw /\
      restrict_team team valid raw = Ok df /\
      metric df = Ok x.
Proof.
  unfold player_data. intros H p x Hin.
  destruct (path_exists fs player_dir).
  - apply rbind_ok in H. destruct H as [names [_ H]].
    exact (proj2 (player_loop_rows names data H p x Hin)).
  - inversion H; subst. destruct Hin.
Qed.

End PlayerLoop.

Lemma restrict_team_unset (valid : option (list cell)) (df : DataFrame) :
  restrict_team None valid df = Ok df.
Proof. reflexivity. Qed.

(** ** C5: the leaderboards *)

(** C5.  Whatever the files, the team and the match ids are, each of the
    three leaderboards the dashboard computes (top run scorers by [runs], top
    wicket takers by [wickets], top fielders by [total]) is sorted
    non-increasingly by that metric and has at most ten rows. *)
Theorem leaderboards_sorted_top10 (fs : FS) (player_dir : string)
    (team : option string) (valid : option (list cell)) :
  (forall board, run_df fs player_dir team valid = Ok board ->
     non_increasing snd board /\ List.length board <= 10) /\
  (forall board, wk_df fs player_dir team valid = Ok board ->
     non_increasing snd board /\ List.length board <= 10) /\
  (forall board, fld_df fs player_dir team valid = Ok board ->
     non_increasing fielder_total board /\ List.length board <= 10).
Proof.
  unfold run_df, wk_df, fld_df.
  split; [|split]; intros board H; apply rbind_ok in H;
    destruct H as [data [_ H]]; inversion H; subst;
    (split; [apply top10_spec | apply (top10_spec _ data)]).
Qed.

Lemma leaderboards_sorted_top10_witness :
  (non_increasing snd [("JE Root", 6%Z); ("V Kohli", 4%Z)] /\
   List.length [("JE Root", 6%Z); ("V Kohli", 4%Z)] <= 10) /\
  (non_increasing snd [("JE Root", 1%Z)] /\
   List.length [("JE Root", 1%Z)] <= 10) /\
  (non_increasing fielder_total [("V Kohli", (2, 1, 1)%Z)] /\
   List.length [("V Kohli", (2, 1, 1)%Z)] <= 10).
Proof.
  destruct (leaderboards_sorted_top10 Sample.fs (player_path "t20s_json")
              None None) as [Hruns [Hwickets Hfielders]].
  split; [|split].
  - apply Hruns. reflexivity.
  - apply Hwickets. reflexivity.
  - apply Hfielders. reflexivity.
Defined.

(** ** C9: fielders *)

(** C9.  For every player listed in the top-fielders leaderboard the
    reported total is catches plus runouts, where catches (runouts) is the
    number of rows of that player's fielder table, as narrowed to the
    selected team's matches when a team is set, whose [wicket_type] is
    "caught" ("run out"). *)
Theorem fielder_total_is_catches_plus_runouts (fs : FS) (player_dir : string)
    (team : option string) (valid : option (list cell))
    (board : list (string * (Z * Z * Z))) (p : string) (t c r : Z) :
  fld_df fs player_dir team valid = Ok board ->
  In (p, (t, c, r)) board ->
  t = (c + r)%Z /\
  exists raw df s,
    load_csv fs (path_join player_dir [p; "fielder.csv"]) = Ok raw /\
    restrict_team team valid raw = Ok df /\
    col df "wicket_type" = Ok s /\
    c = occurrences (VStr "caught") s /\
    r = occurrences (VStr "run out") s.
Proof.
  unfold fld_df, fld_data. intros H Hin.
  apply rbind_ok in H. destruct H as [data [Hdata H]].
  inversion H; subst. apply top10_spec in Hin.
  destruct (player_data_rows _ _ _ _ _ _ data Hdata p (t, c, r) Hin)
    as [raw [df [Hraw [Hdf Hm]]]].
  unfold fielder_dismissals, count_wicket in Hm.
  destruct (col df "wicket_type") as [s|e] eqn:Hs; simpl in Hm;
    [|discriminate Hm].
  inversion Hm; subst. split; [reflexivity|].
  exists raw, df, s. repeat split; try assumption.
  - unfold count_true, eq_str, occurrences.
    do 2 f_equal. induction (values s) as [|x l IH]; simpl; [reflexivity|].
    destruct (cell_eqb x (Some (VStr "caught"))); simpl; rewrite IH; reflexivity.
  - unfold count_true, eq_str, occurrences.
    do 2 f_equal. induction (values s) as [|x l IH]; simpl; [reflexivity|].
    destruct (cell_eqb x (Some (VStr "run out"))); simpl; rewrite IH; reflexivity.
Qed.

Lemma fielder_total_is_catches_plus_runouts_witness :
  (1 = 1 + 0)%Z /\
  exists raw df s,
    load_csv Sample.fs
      (path_join (player_path "t20s_json") ["V Kohli"; "fielder.csv"]) = Ok raw /\
    restrict_team (Some "India") (Some [Some (VInt 1)]) raw = Ok df /\
    col df "wicket_type" = Ok s /\
    1%Z = occurrences (VStr "caught") s /\
    0%Z = occurrences (VStr "run out") s.
Proof.
  apply (fielder_total_is_catches_plus_runouts Sample.fs
           (player_path "t20s_json") (Some "India") (Some [Some (VInt 1)])
           [("V Kohli", (1, 1, 0)%Z)] "V Kohli").
  - reflexivity.
  - left. reflexivity.
Defined.

(** ** Counting values *)

Lemma dedup_in (l : list val) (x : val) : In x (dedup val_eqb l) <-> In x l.
Proof.
  induction l as [|y l IH]; simpl; [reflexivity|].
  rewrite filter_In, IH. split.
  - intros [H|[H _]]; [left; exact H | right; exact H].
  - intros [H|H]; [left; exact H|].
    destruct (val_eqb y x) eqn:E.
    + left. apply val_eqb_eq. exact E.
    + right. split; [exact H | reflexivity].
Qed.

Lemma lookup_count_some (k : val) (vc : list (val * Z)) (n : Z) :
  lookup_count k vc = Some n -> In (k, n) vc.
Proof.
  induction vc as [|[v m] vc IH]; simpl; [discriminate|].
  destruct (val_eqb k v) eqn:E.
  - apply val_eqb_eq in E. intros H. inversion H; subst. left. reflexivity.
  - intros H. right. apply IH. exact H.
Qed.

Lemma lookup_count_none (k : val) (vc : list (val * Z)) :
  lookup_count k vc = None -> forall n, ~ In (k, n) vc.
Proof.
  induction vc as [|[v m] vc IH]; simpl; intros H n Hin; [exact Hin|].
  destruct (val_eqb k v) eqn:E; [discriminate H|].
  destruct Hin as [Hin|Hin].
  - inversion Hin; subst.
    assert (val_eqb k k = true) by (apply val_eqb_eq; reflexivity). congruence.
  - exact (IH H n Hin).
Qed.

Lemma val_eqb_sym (a b : val) : val_eqb a b = val_eqb b a.
Proof.
  destruct a, b; simpl; try reflexivity;
    [apply Z.eqb_sym | apply String.eqb_sym].
Qed.

Lemma count_non_null (k : val) (cs : list cell) :
  count_eq val_eqb k (non_null cs)
  = List.length (filter (fun c => cell_eqb c (Some k)) cs).
Proof.
  unfold count_eq. induction cs as [|[v|] cs IH]; simpl; [reflexivity| |exact IH].
  rewrite (val_eqb_sym v k).
  destruct (val_eqb k v); simpl; rewrite IH; reflexivity.
Qed.

Lemma count_eq_zero (k : val) (vs : list val) :
  ~ In k vs -> count_eq val_eqb k vs = 0.
Proof.
  unfold count_eq. induction vs as [|v vs IH]; simpl; intros H; [reflexivity|].
  destruct (val_eqb k v) eqn:E.
  - apply val_eqb_eq in E. exfalso. apply H. left. symmetry. exact E.
  - apply IH. intros Hin. apply H. right. exact Hin.
Qed.

(** The entries of [value_counts] are the distinct non-null values, each
    with the number of its occurrences. *)
Lemma value_counts_in (s : Series) (k : val) (n : Z) :
  In (k, n) (value_counts s) <->
  In k (non_null (values s)) /\ n = occurrences k s.
Proof.
  unfold value_counts, sort_values_desc, occurrences.
  rewrite <- count_non_null. split.
  - intros H.
    apply (Permutation_in _ (sort_by_perm _ _)) in H.
    apply in_map_iff in H. destruct H as [v [E Hv]].
    inversion E; subst. split; [apply dedup_in; exact Hv | reflexivity].
  - intros [Hk ->].
    apply (Permutation_in _ (Permutation_sym (sort_by_perm _ _))).
    apply in_map_iff. exists k. split; [reflexivity | apply dedup_in; exact Hk].
Qed.

(** Re-indexing the counts on a list of labels gives every label its number
    of occurrences, [0] when the value does not occur. *)
Lemma reindex_value_counts (labels : list val) (s : Series) :
  reindex labels 0%Z (value_counts s)
  = map (fun k => (k, occurrences k s)) labels.
Proof.
  unfold reindex. apply map_ext. intros k. f_equal.
  destruct (lookup_count k (value_counts s)) as [n|] eqn:E.
  - apply lookup_count_some, value_counts_in in E. apply E.
  - unfold occurrences. rewrite <- count_non_null.
    rewrite count_eq_zero; [reflexivity|].
    intros Hin. apply (lookup_count_none _ _ E (occurrences k s)).
    apply value_counts_in. split; [exact Hin | reflexivity].
Qed.

Lemma hits_at_most_one (c : cell) (labels : list val) :
  NoDup labels ->
  (total (map (fun k => if cell_eqb c (Some k) then 1 else 0) labels) <= 1)%Z /\
  (0 <= total (map (fun k => if cell_eqb c (Some k) then 1 else 0) labels))%Z /\
  ((forall k, In k labels -> c <> Some k) ->
   total (map (fun k => if cell_eqb c (Some k) then 1 else 0) labels) = 0)%Z.
Proof.
  induction 1 as [|k ls Hk Hnd IH]; simpl.
  - repeat split; lia.
  - destruct IH as [IH1 [IH0 IHz]].
    destruct (cell_eqb c (Some k)) eqn:E.
    + apply cell_eqb_eq in E. subst c.
      rewrite IHz.
      * repeat split; try lia.
        intros Hno. exfalso. apply (Hno k); [left|]; reflexivity.
      * intros k' Hk' Heq. inversion Heq; subst. exact (Hk Hk').
    + repeat split; try lia.
      intros Hno. rewrite IHz; [reflexivity|].
      intros k' Hk'. apply Hno. right. exact Hk'.
Qed.

Lemma total_pointwise_add {K} (f g : K -> Z) (l : list K) :
  total (map (fun k => (f k + g k)%Z) l)
  = (total (map f l) + total (map g l))%Z.
Proof. induction l as [|k l IH]; simpl; [reflexivity | rewrite IH; lia]. Qed.

(** Counts taken on distinct labels never add up to more than the number of
    cells of the column. *)
Lemma occurrences_total (labels : list val) (s : Series) :
  NoDup labels ->
  (total (map (fun k => occurrences k s) labels) <= Z.of_nat (size s))%Z.
Proof.
  intros Hnd. rewrite <- values_length. unfold occurrences.
  induction (values s) as [|c cs IH]; simpl.
  - induction labels as [|k ls IHl]; simpl; [lia|].
    inversion Hnd; subst. specialize (IHl H2). lia.
  - rewrite (map_ext _ (fun k =>
      ((if cell_eqb c (Some k) then 1 else 0)
       + Z.of_nat (List.length (filter (fun c0 => cell_eqb c0 (Some k)) cs)))%Z)).
    + rewrite total_pointwise_add.
      pose proof (hits_at_most_one c labels Hnd) as [H1 _]. lia.
    + intros k. destruct (cell_eqb c (Some k)); simpl List.length; lia.
Qed.

Lemma occurrences_nonneg (k : val) (s : Series) : (0 <= occurrences k s)%Z.
Proof. unfold occurrences. lia. Qed.

Lemma run_labels_nodup : NoDup run_labels.
Proof.
  unfold run_labels. simpl.
  repeat (constructor;
          [simpl; intros H;
           repeat (destruct H as [H|H]; [discriminate H|]); exact H|]).
  constructor.
Qed.

(** ** C3: the runs distribution *)

(** C3.  For every ball-events table (a rectangular frame with a
    [runs_batter] column) the runs distribution has exactly six entries, one
    for each of 0, 1, 2, 3, 4, 6 in this order; the entry of a value is the
    number of rows holding it, so a value that does not occur gets 0, other
    values are ignored and every count is non-negative; and the six counts
    add up to at most the number of rows. *)
Theorem runs_distribution_six_entries (ball_df : DataFrame) (s : Series) :
  rectangular ball_df ->
  col ball_df "runs_batter" = Ok s ->
  exists d,
    runs_distribution ball_df = Ok d /\
    map fst d = map VInt [0; 1; 2; 3; 4; 6]%Z /\
    List.length d = 6 /\
    (forall k n, In (k, n) d -> n = occurrences k s /\ (0 <= n)%Z) /\
    (total (map snd d) <= Z.of_nat (len ball_df))%Z.
Proof.
  intros Hrect Hs. unfold runs_distribution. rewrite Hs. cbn [rbind].
  rewrite reindex_value_counts.
  eexists. split; [reflexivity|]. split; [|split; [|split]].
  - rewrite map_map. simpl. reflexivity.
  - reflexivity.
  - intros k n Hin. apply in_map_iff in Hin. destruct Hin as [k' [E _]].
    inversion E; subst. split; [reflexivity | apply occurrences_nonneg].
  - rewrite map_map. simpl snd.
    rewrite <- (Hrect "runs_batter" s).
    + apply occurrences_total, run_labels_nodup.
    + apply find_col_in, col_ok. exact Hs.
Qed.

Lemma runs_distribution_six_entries_witness :
  exists d,
    runs_distribution Sample.ball_scenario = Ok d /\
    map fst d = map VInt [0; 1; 2; 3; 4; 6]%Z /\
    List.length d = 6 /\
    (forall k n, In (k, n) d ->
       n = occurrences k (IntS [Some 4; Some 0; Some 6]%Z) /\ (0 <= n)%Z) /\
    (total (map snd d) <= Z.of_nat (len Sample.ball_scenario))%Z.
Proof.
  apply (runs_distribution_six_entries Sample.ball_scenario
           (IntS [Some 4; Some 0; Some 6]%Z)).
  - intros c s [H|[H|[]]]; inversion H; subst; reflexivity.
  - reflexivity.
Defined.

(** ** C4: totals *)

Lemma wrap64_in_range (z : Z) :
  (- 2 ^ 63 <= z < 2 ^ 63)%Z -> wrap64 z = z.
Proof.
  intros H. unfold wrap64. rewrite Z.mod_small; lia.
Qed.

Lemma series_sum_sums_to (s : Series) (z : Z) :
  sums_to s z -> series_sum s = Ok z.
Proof.
  intros [xs | xs H]; unfold series_sum; [reflexivity|].
  apply Z.leb_le in H. rewrite H. reflexivity.
Qed.

Lemma totals_ok (ball_df : DataFrame) (rt wt re : Series) (runs extras : Z) :
  col ball_df "runs_total" = Ok rt ->
  col ball_df "wicket_type" = Ok wt ->
  col ball_df "runs_extras" = Ok re ->
  sums_to rt runs ->
  sums_to re extras ->
  totals ball_df
  = Ok [ ("Total Runs", runs);
         ("Total Wickets", count_true (notna wt));
         ("Total Extras", extras);
         ("Total Balls", Z.of_nat (len ball_df)) ].
Proof.
  intros Hrt Hwt Hre Hr He. unfold totals.
  rewrite Hrt, Hwt, Hre. cbn [rbind].
  rewrite (series_sum_sums_to _ _ Hr). cbn [rbind].
  rewrite (series_sum_sums_to _ _ He). reflexivity.
Qed.

(** C4, as the code has it.  Over a ball-events table that has the three
    columns, the two run columns numeric, the Totals aggregate yields the
    four scalars: what [runs_total] sums to, the number of non-null
    [wicket_type], what [runs_extras] sums to, the number of rows.  A column
    sums the way pandas adds it: an int64 column in int64, which is the sum
    of the cells whenever that sum fits and wraps otherwise; a float64
    column exactly, as long as the magnitudes of its cells add up to at most
    [2^53].  When the [runs_total] column is absent the aggregate raises
    [KeyError]; no total is produced and nothing defaults to 0. *)
Theorem totals_scalars_or_key_error (ball_df : DataFrame) :
  (forall rt wt re runs extras,
     col ball_df "runs_total" = Ok rt ->
     col ball_df "wicket_type" = Ok wt ->
     col ball_df "runs_extras" = Ok re ->
     sums_to rt runs ->
     sums_to re extras ->
     totals ball_df
     = Ok [ ("Total Runs", runs);
            ("Total Wickets", count_true (notna wt));
            ("Total Extras", extras);
            ("Total Balls", Z.of_nat (len ball_df)) ]) /\
  (forall xs, (- 2 ^ 63 <= sum_cells xs < 2 ^ 63)%Z ->
     sums_to (IntS xs) (sum_cells xs)) /\
  (has_col ball_df "runs_total" = false ->
   totals ball_df = Raise (KeyError ["runs_total"])).
Proof.
  split; [|split].
  - intros rt wt re runs extras. apply totals_ok.
  - intros xs H. rewrite <- (wrap64_in_range _ H). constructor.
  - intros H. unfold totals. rewrite (col_absent _ _ H). reflexivity.
Qed.

Lemma totals_scalars_or_key_error_witness :
  totals Sample.ball
  = Ok [ ("Total Runs", 11%Z); ("Total Wickets", 1%Z);
         ("Total Extras", 1%Z); ("Total Balls", 3%Z) ] /\
  totals Sample.ball_no_total = Raise (KeyError ["runs_total"]).
Proof.
  pose proof (totals_scalars_or_key_error Sample.ball) as [Hsum [Hfit _]].
  split.
  - apply (Hsum (IntS [Some 4; Some 1; Some 6]%Z)
                (StrS [None; Some "caught"; None])
                (IntS [Some 0; Some 1; Some 0]%Z) 11%Z 1%Z);
      try reflexivity; apply Hfit; vm_compute;
      (split; [discriminate | reflexivity]).
  - apply (proj2 (proj2 (totals_scalars_or_key_error Sample.ball_no_total))).
    reflexivity.
Defined.

(** C4 as stated fails: on a table that has every column of the aggregate
    but [runs_total], no total-runs scalar is produced at all; the same
    happens on the two-column table of the specification's scenario.  And
    the scalar is not always the sum: two cells of [2^62] in an int64
    column total [-2^63]. *)
Lemma totals_no_default_without_runs_total :
  has_col Sample.ball_no_total "runs_total" = false /\
  totals Sample.ball_no_total = Raise (KeyError ["runs_total"]) /\
  ~ (exists t, totals Sample.ball_no_total = Ok t /\ In ("Total Runs", 0%Z) t) /\
  totals Sample.ball_scenario = Raise (KeyError ["runs_total"]) /\
  totals SamplePage.ball_wrapping
  = Ok [ ("Total Runs", (-9223372036854775808)%Z); ("Total Wickets", 0%Z);
         ("Total Extras", 0%Z); ("Total Balls", 2%Z) ] /\
  (4611686018427387904 + 4611686018427387904 = 9223372036854775808)%Z.
Proof.
  split; [reflexivity|]. split; [reflexivity|]. split; [|repeat split; reflexivity].
  intros [t [H _]]. discriminate H.
Qed.

(** ** C2: an empty matches table *)

(** C2, as the code has it.  With a team set and an empty matches table the
    filter block is skipped: [valid_match_ids] stays unassigned and the
    ball-events, info and matches tables come out unchanged; this step
    raises nothing. *)
Theorem team_filter_skipped_on_empty_matches (team : option string)
    (ball_df info_df matches_df : DataFrame) :
  truthy team = true ->
  empty matches_df = true ->
  team_filter team ball_df info_df matches_df
  = Ok (None, ball_df, info_df, matches_df).
Proof.
  intros Ht He. unfold team_filter. rewrite Ht, He. reflexivity.
Qed.

Lemma team_filter_skipped_on_empty_matches_witness :
  team_filter (Some "India") Sample.ball Sample.info empty_frame
  = Ok (None, Sample.ball, Sample.info, empty_frame).
Proof.
  apply (team_filter_skipped_on_empty_matches (Some "India")
           Sample.ball Sample.info empty_frame); reflexivity.
Defined.

(** C2 as stated fails: with no match list, the tables of team "India" are
    the unfiltered ones, there is no set of valid match ids, and the first
    per-player loop stops on the unassigned variable. *)
Lemma empty_matches_do_not_empty_the_tables :
  load_csv Sample.fs_no_matches (matches_path "t20s_json") = Ok empty_frame /\
  empty empty_frame = true /\
  load_tables Sample.fs_no_matches "t20s_json" (Some "India")
  = Ok (None, Sample.ball, Sample.info, empty_frame) /\
  empty Sample.ball = false /\
  empty Sample.info = false /\
  ending (show_dashboard Sample.fs_no_matches "t20s_json"
            "T20 International Matches" (Some "India"))
  = Throw (UnboundLocalError "valid_match_ids").
Proof. repeat split; reflexivity. Qed.

(** ** C6: win margins *)

Lemma len_head (n : nat) (df : DataFrame) : len (head n df) <= n.
Proof.
  destruct df as [|[c s] df]; simpl; [lia|].
  destruct s; simpl; apply firstn_le_length.
Qed.

Lemma margins_section_guard (matches_df : DataFrame) :
  has_col matches_df "outcome.by.wickets" = false ->
  has_col matches_df "outcome.by.runs" = false ->
  margins_section matches_df = pass.
Proof.
  intros Hw Hr. unfold margins_section. rewrite Hw, Hr. reflexivity.
Qed.

(** With the four columns in the table the preview is produced, over these
    four columns and with at most twenty rows. *)
Lemma margins_section_preview (matches_df : DataFrame) :
  forallb (has_col matches_df) margin_columns = true ->
  exists sel,
    select_cols matches_df margin_columns = Ok sel /\
    columns sel = margin_columns /\
    margins_section matches_df
    = ([subheader margins_title; table (FrameView (head 20 (dropna_all sel)))],
       Next tt) /\
    len (head 20 (dropna_all sel)) <= 20.
Proof.
  unfold margin_columns. simpl forallb. intros H.
  repeat (apply andb_prop in H; destruct H as [?H H]).
  unfold margins_section, margin_df, select_cols, margin_columns.
  unfold has_col in *. simpl filter. simpl flat_map.
  destruct (find_col matches_df "outcome.winner"); [|discriminate].
  destruct (find_col matches_df "outcome.by.wickets"); [|discriminate].
  destruct (find_col matches_df "outcome.by.runs"); [|discriminate].
  destruct (find_col matches_df "outcome.result"); [|discriminate].
  simpl. eexists. split; [reflexivity|]. split; [reflexivity|].
  split; [reflexivity | apply len_head].
Qed.

(** C6 at the failing input: a match list with [outcome.by.runs] but no
    [outcome.by.wickets] column.  The guard of the section lets it through,
    its heading is written, and selecting the four columns raises
    [KeyError]: no preview is produced and the render stops there. *)
Theorem margins_fail_with_one_margin_column :
  has_col Sample.matches_by_runs "outcome.by.runs" = true /\
  has_col Sample.matches_by_runs "outcome.by.wickets" = false /\
  margin_df Sample.matches_by_runs = Raise (KeyError ["outcome.by.wickets"]) /\
  margins_section Sample.matches_by_runs
  = ([subheader margins_title], Throw (KeyError ["outcome.by.wickets"])) /\
  ending (show_dashboard Sample.fs_by_runs "t20s_json"
            "T20 International Matches" None)
  = Throw (KeyError ["outcome.by.wickets"]).
Proof. repeat split; reflexivity. Qed.

(** ** C7: the awards section *)

Lemma Forall_output_bind_ending {A B} (P : widget -> Prop) (m : render A)
    (k : A -> render B) :
  Forall P (fst m) ->
  (forall a, snd m = Next a -> Forall P (fst (k a))) ->
  Forall P (fst (bind m k)).
Proof.
  intros Hm Hk. destruct m as [out [a| |e]]; simpl in *; try exact Hm.
  apply Forall_app. split; [exact Hm | apply Hk; reflexivity].
Qed.

Ltac no_awards :=
  repeat first
    [ apply Forall_nil
    | apply Forall_output_eval
    | apply Forall_output_st; reflexivity
    | apply Forall_output_bind; [|intros ?]
    | match goal with
      | |- Forall _ (fst (if ?b then _ else _)) => destruct b
      end ].

Lemma ball_sections_no_awards (ball_df : DataFrame) :
  Forall not_awards (fst (ball_sections ball_df)).
Proof. unfold ball_sections, pie_and_table. no_awards. Qed.

Lemma player_sections_no_awards fs player_dir team valid :
  Forall not_awards (fst (player_sections fs player_dir team valid)).
Proof. unfold player_sections. no_awards. Qed.

Lemma toss_sections_no_awards (info_df : DataFrame) :
  Forall not_awards (fst (toss_sections info_df)).
Proof. unfold toss_sections, pass. no_awards. Qed.

Lemma winners_section_no_awards (matches_df : DataFrame) :
  Forall not_awards (fst (winners_section matches_df)).
Proof. unfold winners_section, margins_section, pass. no_awards. Qed.

Lemma upto_toss_no_awards fs folder title team :
  Forall not_awards (fst (dashboard_upto_toss fs folder title team)).
Proof.
  unfold dashboard_upto_toss.
  apply Forall_output_bind; [apply Forall_output_st; reflexivity | intros _].
  apply Forall_output_bind; [apply Forall_output_eval | intros t].
  destruct (empty (snd (fst (fst t)))).
  - no_awards.
  - apply Forall_output_bind; [apply ball_sections_no_awards | intros _].
    apply Forall_output_bind; [apply player_sections_no_awards | intros _].
    apply Forall_output_bind; [apply toss_sections_no_awards | intros _].
    apply Forall_nil.
Qed.

(** The matches table the last sections see has the columns of the loaded
    one: the team filter only drops rows. *)
Lemma restrict_has_col (df df' : DataFrame) (ids : list cell) (c : string) :
  restrict df ids = Ok df' -> has_col df' c = has_col df c.
Proof.
  unfold restrict. intros H. apply rbind_ok in H. destruct H as [m [_ H]].
  inversion H; subst. apply has_col_mask_rows.
Qed.

Lemma team_filter_matches_columns team ball_df info_df matches_df t c :
  team_filter team ball_df info_df matches_df = Ok t ->
  has_col (snd t) c = has_col matches_df c.
Proof.
  unfold team_filter. destruct (truthy team && negb (empty matches_df)).
  - intros H.
    apply rbind_ok in H. destruct H as [teams [_ H]].
    apply rbind_ok in H. destruct H as [mask [_ H]].
    apply rbind_ok in H. destruct H as [ids [_ H]].
    apply rbind_ok in H. destruct H as [b' [_ H]].
    apply rbind_ok in H. destruct H as [i' [_ H]].
    apply rbind_ok in H. destruct H as [m' [Hm H]].
    inversion H; subst. simpl. eapply restrict_has_col. exact Hm.
  - intros H. inversion H; subst. reflexivity.
Qed.

Lemma load_tables_matches_columns fs folder team t m0 c :
  load_tables fs folder team = Ok t ->
  load_csv fs (matches_path folder) = Ok m0 ->
  has_col (snd t) c = has_col m0 c.
Proof.
  unfold load_tables. fold (matches_path folder). intros H Hm0.
  apply rbind_ok in H. destruct H as [b [_ H]].
  apply rbind_ok in H. destruct H as [i [_ H]].
  apply rbind_ok in H. destruct H as [m [Hm H]].
  rewrite Hm0 in Hm. inversion Hm; subst.
  eapply team_filter_matches_columns. exact H.
Qed.

Lemma upto_toss_ending fs folder title team m :
  snd (dashboard_upto_toss fs folder title team) = Next m ->
  exists t, load_tables fs folder team = Ok t /\ m = snd t.
Proof.
  unfold dashboard_upto_toss. intros H.
  apply ending_bind_next in H. destruct H as [[] [_ H]].
  apply ending_bind_next in H. destruct H as [t [Ht H]].
  exists t. split.
  - destruct (load_tables fs folder team); simpl in Ht; inversion Ht; reflexivity.
  - destruct (empty (snd (fst (fst t)))).
    + apply ending_bind_next in H. destruct H as [[] [_ H]]. discriminate H.
    + apply ending_bind_next in H. destruct H as [[] [_ H]].
      apply ending_bind_next in H. destruct H as [[] [_ H]].
      apply ending_bind_next in H. destruct H as [[] [_ H]].
      simpl in H. inversion H. reflexivity.
Qed.

Lemma awards_section_heading (matches_df : DataFrame) :
  In (subheader awards_title) (fst (awards_section matches_df)) <->
  empty matches_df = false /\ has_col matches_df "player_of_match" = true.
Proof.
  unfold awards_section.
  destruct (empty matches_df), (has_col matches_df "player_of_match");
    cbn [negb andb].
  - simpl. split; [intros [] | intros [H _]; discriminate H].
  - simpl. split; [intros [] | intros [H _]; discriminate H].
  - split; [intros _; split; reflexivity|]. intros _.
    apply output_bind. left. left. reflexivity.
  - simpl. split; [intros [] | intros [_ H]; discriminate H].
Qed.

Lemma awards_section_silent (matches_df : DataFrame) :
  has_col matches_df "player_of_match" = false ->
  fst (awards_section matches_df) = [].
Proof.
  intros H. unfold awards_section. rewrite H, andb_false_r. reflexivity.
Qed.

Lemma not_awards_heading (l : list widget) :
  Forall not_awards l -> ~ In (subheader awards_title) l.
Proof.
  intros H Hin. rewrite Forall_forall in H. specialize (H _ Hin).
  unfold not_awards in H. cbn [is_awards_widget] in H.
  rewrite String.eqb_refl in H. discriminate H.
Qed.

Lemma output_bind_next {A B} (m : render A) (k : A -> render B) (a : A) :
  snd m = Next a -> fst (bind m k) = fst m ++ fst (k a).
Proof.
  destruct m as [out [a'| |e]]; simpl; intros H; inversion H; reflexivity.
Qed.

(** With rows and the column, the section is the heading, the bar chart of
    the first ten counts and the table of all counts, and it ends
    normally. *)
Lemma awards_section_content (matches_df : DataFrame) (s : Series) :
  empty matches_df = false ->
  col matches_df "player_of_match" = Ok s ->
  awards_section matches_df = (awards_widgets s, Next tt).
Proof.
  intros He Hs. unfold awards_section, counts_of.
  rewrite He, (col_present _ _ _ Hs), Hs. reflexivity.
Qed.

Lemma awards_section_skipped (matches_df : DataFrame) :
  ~ (empty matches_df = false /\ has_col matches_df "player_of_match" = true) ->
  awards_section matches_df = pass.
Proof.
  intros H. unfold awards_section.
  destruct (empty matches_df), (has_col matches_df "player_of_match");
    try reflexivity.
  exfalso. apply H. split; reflexivity.
Qed.

(** C7, as the code has it.  When the render reaches line 146 (the
    ball-events table was not empty and nothing failed before) with a
    matches table that is not empty and has the [player_of_match] column,
    the awards section is produced in full, right after the toss analysis:
    its heading, the bar chart of the ten most awarded players and the
    table of all award counts.  Its heading is written in that case only.
    In every other case no widget of the section is written: no heading, no
    chart and no table, empty or not; in particular when the loaded match
    list has no [player_of_match] column. *)
Theorem awards_section_iff_reached_with_column (fs : FS)
    (folder title : string) (team : option string) :
  (forall matches_df s,
     ending (dashboard_upto_toss fs folder title team) = Next matches_df ->
     empty matches_df = false ->
     col matches_df "player_of_match" = Ok s ->
     output (show_dashboard fs folder title team)
     = output (dashboard_upto_toss fs folder title team)
         ++ awards_widgets s ++ output (winners_section matches_df)) /\
  (In (subheader awards_title) (output (show_dashboard fs folder title team))
   <->
   exists matches_df,
     ending (dashboard_upto_toss fs folder title team) = Next matches_df /\
     empty matches_df = false /\
     has_col matches_df "player_of_match" = true) /\
  (~ (exists matches_df,
        ending (dashboard_upto_toss fs folder title team) = Next matches_df /\
        empty matches_df = false /\
        has_col matches_df "player_of_match" = true) ->
   forall w, In w (output (show_dashboard fs folder title team)) ->
             is_awards_widget w = false) /\
  (forall m0,
     load_csv fs (matches_path folder) = Ok m0 ->
     has_col m0 "player_of_match" = false ->
     forall w, In w (output (show_dashboard fs folder title team)) ->
               is_awards_widget w = false).
Proof.
  unfold output, ending, show_dashboard.
  assert (Hnone :
    (forall m, snd (dashboard_upto_toss fs folder title team) = Next m ->
               ~ (empty m = false /\ has_col m "player_of_match" = true)) ->
    forall w,
      In w (fst (bind (dashboard_upto_toss fs folder title team)
                   (fun m => bind (awards_section m)
                               (fun _ => winners_section m)))) ->
      is_awards_widget w = false).
  { intros Hno. apply Forall_forall.
    apply Forall_output_bind_ending; [apply upto_toss_no_awards|].
    intros m Hm. apply Forall_output_bind.
    - rewrite (awards_section_skipped m (Hno m Hm)). constructor.
    - intros _. apply winners_section_no_awards. }
  split; [|split; [|split]].
  - intros m s Hm He Hs.
    rewrite (output_bind_next _ _ m Hm). f_equal.
    rewrite (awards_section_content m s He Hs). reflexivity.
  - rewrite output_bind. split.
    + intros [H|[m [Hm H]]].
      * exfalso. exact (not_awards_heading _ (upto_toss_no_awards _ _ _ _) H).
      * apply output_bind in H. destruct H as [H|[[] [_ H]]].
        -- exists m. split; [exact Hm | apply awards_section_heading; exact H].
        -- exfalso.
           exact (not_awards_heading _ (winners_section_no_awards m) H).
    + intros [m [Hm H]]. right. exists m. split; [exact Hm|].
      apply output_bind. left. apply awards_section_heading. exact H.
  - intros Hno. apply Hnone. intros m Hm Hc. apply Hno.
    exists m. split; [exact Hm | exact Hc].
  - intros m0 Hm0 Hcol. apply Hnone. intros m Hm [_ Hc].
    apply upto_toss_ending in Hm. destruct Hm as [t [Ht ->]].
    rewrite (load_tables_matches_columns _ _ _ _ _ _ Ht Hm0) in Hc.
    rewrite Hcol in Hc. discriminate Hc.
Qed.

Lemma awards_section_iff_reached_with_column_witness :
  output (show_dashboard Sample.fs "t20s_json" "T20 International Matches"
            (Some "India"))
  = output (dashboard_upto_toss Sample.fs "t20s_json"
              "T20 International Matches" (Some "India"))
      ++ [ subheader awards_title;
           bar_chart (CountTable "player" "count" [(VStr "V Kohli", 1%Z)]);
           table (CountTable "player" "count" [(VStr "V Kohli", 1%Z)]) ]
      ++ output (winners_section (mask_rows [true; false] Sample.matches)) /\
  In (subheader awards_title)
     (output (show_dashboard Sample.fs "t20s_json" "T20 International Matches"
                (Some "India"))) /\
  (forall w,
     In w (output (show_dashboard Sample.fs_by_runs "t20s_json"
                     "T20 International Matches" None)) ->
     is_awards_widget w = false).
Proof.
  pose proof (awards_section_iff_reached_with_column Sample.fs "t20s_json"
                "T20 International Matches" (Some "India"))
    as [Hfull [Hhead _]].
  split; [|split].
  - apply (Hfull (mask_rows [true; false] Sample.matches)
                 (StrS [Some "V Kohli"])); reflexivity.
  - apply Hhead.
    exists (mask_rows [true; false] Sample.matches).
    repeat split; reflexivity.
  - apply (proj2 (proj2 (proj2
             (awards_section_iff_reached_with_column Sample.fs_by_runs
                "t20s_json" "T20 International Matches" None)))
             Sample.matches_by_runs); reflexivity.
Defined.

(** C7 as stated fails, in two ways.  The match list has a
    [player_of_match] column, but without ball-by-ball data the render stops
    after its warning and the awards section is not produced.  And with all
    the data of the category but a match list of its header line only, the
    render reaches line 146, the column is there, and the section is not
    produced because the list has no row. *)
Lemma awards_absent_although_column_present :
  (load_csv Sample.fs_no_ball (matches_path "t20s_json") = Ok Sample.matches /\
   has_col Sample.matches "player_of_match" = true /\
   show_dashboard Sample.fs_no_ball "t20s_json" "T20 International Matches" None
   = ([header "📊 T20 International Matches";
       warning "No ball-by-ball data available for this selection."], Return) /\
   ~ In (subheader awards_title)
        (output (show_dashboard Sample.fs_no_ball "t20s_json"
                   "T20 International Matches" None))) /\
  (load_csv SamplePage.fs_header_only (matches_path "t20s_json")
   = Ok SamplePage.matches_header_only /\
   has_col SamplePage.matches_header_only "player_of_match" = true /\
   empty SamplePage.matches_header_only = true /\
   ending (dashboard_upto_toss SamplePage.fs_header_only "t20s_json"
             "T20 International Matches" None)
   = Next SamplePage.matches_header_only /\
   ending (show_dashboard SamplePage.fs_header_only "t20s_json"
             "T20 International Matches" None) = Next tt /\
   ~ In (subheader awards_title)
        (output (show_dashboard SamplePage.fs_header_only "t20s_json"
                   "T20 International Matches" None))).
Proof.
  split.
  - repeat split; try reflexivity.
    simpl. intros [H|[H|[]]]; discriminate H.
  - repeat split; try reflexivity.
    intros H. vm_compute in H.
    repeat (destruct H as [H|H]; [discriminate H|]). exact H.
Qed.

(** ** C1: the team filter *)

Lemma starts_with_spec (t s : string) :
  starts_with t s = true <-> exists post, s = (t ++ post)%string.
Proof.
  revert s. induction t as [|a t IH]; intros s; simpl.
  - split; [intros _; exists s; reflexivity | reflexivity].
  - destruct s as [|c s]; simpl.
    + split; [discriminate | intros [post H]; discriminate H].
    + rewrite andb_true_iff, Ascii.eqb_eq, IH. split.
      * intros [-> [post ->]]. exists post. reflexivity.
      * intros [post H]. inversion H; subst. split; [reflexivity|].
        exists post. reflexivity.
Qed.

(** [contains_literal] decides "contains as a substring". *)
Lemma contains_literal_spec (t s : string) :
  contains_literal t s = true <-> is_substring t s.
Proof.
  unfold is_substring. split.
  - induction s as [|c s IH]; simpl; rewrite orb_true_iff.
    + intros [H|H]; [|discriminate H].
      apply starts_with_spec in H. destruct H as [post H].
      exists EmptyString, post. exact H.
    + intros [H|H].
      * apply starts_with_spec in H. destruct H as [post H].
        exists EmptyString, post. exact H.
      * destruct (IH H) as [pre [post E]].
        exists (String c pre), post. simpl. rewrite E. reflexivity.
  - intros [pre [post E]]. revert s E.
    induction pre as [|c pre IH]; intros s E; simpl in E.
    + assert (H : starts_with t s = true)
        by (apply starts_with_spec; exists post; exact E).
      destruct s; simpl; rewrite H; reflexivity.
    + subst s. simpl. rewrite (IH _ eq_refl). apply orb_true_r.
Qed.

Lemma not_special_not_dot (a : ascii) :
  regex_special a = false -> Ascii.eqb a dot = false.
Proof.
  unfold regex_special. simpl. intros H.
  apply orb_false_elim in H. exact (proj1 H).
Qed.

(** On a pattern without operators [re.search] is a substring test. *)
Lemma match_here_plain (t s : string) :
  plain_text t = true -> match_here t s = starts_with t s.
Proof.
  unfold plain_text. revert s. induction t as [|a t IH]; intros s; simpl.
  - reflexivity.
  - rewrite andb_true_iff, negb_true_iff. intros [Ha Ht].
    destruct s as [|c s]; [reflexivity|].
    unfold atom_matches. rewrite (not_special_not_dot a Ha), (IH s Ht).
    reflexivity.
Qed.

Lemma search_plain (t s : string) :
  plain_text t = true -> search t s = contains_literal t s.
Proof.
  intros Ht. induction s as [|c s IH]; simpl;
    rewrite (match_here_plain _ _ Ht); [reflexivity|].
  rewrite IH. reflexivity.
Qed.

Lemma plain_text_modelled (t : string) :
  plain_text t = true -> modelled_pattern t = true.
Proof.
  unfold plain_text, modelled_pattern.
  induction (list_ascii_of_string t) as [|a l IH]; simpl; [reflexivity|].
  rewrite andb_true_iff. intros [Ha Hl].
  rewrite Ha, (IH Hl). reflexivity.
Qed.

Lemma str_contains_plain (xs : list (option string)) (t : string) :
  plain_text t = true ->
  str_contains (StrS xs) t
  = Ok (map (fun x => match x with
                      | Some s => contains_literal t s
                      | None => false
                      end) xs).
Proof.
  intros Ht. unfold str_contains. rewrite (plain_text_modelled t Ht).
  f_equal. apply map_ext. intros [s|]; [apply search_plain; exact Ht | reflexivity].
Qed.

Lemma truthy_some (t : string) : t <> "" -> truthy (Some t) = true.
Proof.
  intros H. simpl. destruct (String.eqb t "") eqn:E; [|reflexivity].
  apply String.eqb_eq in E. contradiction.
Qed.

(** Outside the two defects recorded below, the filter is the one the
    specification describes: for a team name without regular-expression
    operators and tables that all have a [match_id] column, the selected
    rows of the match list are those whose [teams] text contains the name,
    [valid_match_ids] are their distinct ids, and the three tables keep the
    rows whose id is among them. *)
Lemma team_filter_plain_name (t : string) (ball_df info_df matches_df : DataFrame)
    (teams : list (option string)) (mids bm im : Series) :
  t <> "" ->
  plain_text t = true ->
  empty matches_df = false ->
  col matches_df "teams" = Ok (StrS teams) ->
  col matches_df "match_id" = Ok mids ->
  col ball_df "match_id" = Ok bm ->
  col info_df "match_id" = Ok im ->
  let mask := map (fun x => match x with
                            | Some s => contains_literal t s
                            | None => false
                            end) teams in
  let valid := dedup cell_eqb (select_mask mask (values mids)) in
  team_filter (Some t) ball_df info_df matches_df
  = Ok (Some valid,
        mask_rows (isin bm valid) ball_df,
        mask_rows (isin im valid) info_df,
        mask_rows (isin mids valid) matches_df).
Proof.
  intros Hne Hplain Hempty Hteams Hmids Hbm Him mask valid.
  unfold team_filter. rewrite (truthy_some t Hne), Hempty. cbn [negb andb].
  rewrite Hteams. cbn [rbind team_text].
  rewrite (str_contains_plain teams t Hplain). cbn [rbind]. fold mask.
  rewrite (col_mask_rows mask _ _ _ Hmids). cbn [rbind].
  unfold unique. rewrite values_series_mask. fold valid.
  unfold restrict. rewrite Hbm, Him, Hmids. reflexivity.
Qed.

(** The per-player tables are narrowed by the same ids. *)
Lemma restrict_team_set (t : string) (ids : list cell) (df : DataFrame) :
  t <> "" -> restrict_team (Some t) (Some ids) df = restrict df ids.
Proof.
  intros Hne. unfold restrict_team, restrict. rewrite (truthy_some t Hne).
  destruct (col df "match_id"); reflexivity.
Qed.

(** C1 at the failing input: the team directory "U.A.E" and a match list
    with the two fixtures "U.A.E vs Oman" and "USA Eagles vs Canada".  The
    name is compiled as a regular expression, its dots match any character,
    and the second fixture is selected although its [teams] text does not
    contain the name: [valid_match_ids] is [[1; 2]] where containment gives
    [[1]], and no row of the ball-events and info tables is dropped. *)
Theorem team_name_read_as_pattern :
  ~ is_substring "U.A.E" "USA Eagles vs Canada" /\
  dedup cell_eqb
    (select_mask
       (map (fun x => match x with
                      | Some s => contains_literal "U.A.E" s
                      | None => false
                      end)
            [Some "U.A.E vs Oman"; Some "USA Eagles vs Canada"])
       [Some (VInt 1); Some (VInt 2)])
  = [Some (VInt 1)] /\
  team_filter (Some "U.A.E") Sample.ball Sample.info Sample.matches_dotted
  = Ok (Some [Some (VInt 1); Some (VInt 2)],
        Sample.ball, Sample.info, Sample.matches_dotted).
Proof.
  split; [|split; reflexivity].
  intros H. apply contains_literal_spec in H. discriminate H.
Qed.

(** A second defect of the same block: a table whose file is missing has no
    [match_id] column, so with a team set the filter raises [KeyError]
    instead of leaving the table empty. *)
Lemma team_filter_raises_on_missing_table :
  load_csv Sample.fs_no_info (path_join BASE_PATH ["t20s_json"; "info_summary.csv"])
  = Ok empty_frame /\
  show_dashboard Sample.fs_no_info "t20s_json" "T20 International Matches"
    (Some "India")
  = ([header "📊 T20 International Matches - India"],
     Throw (KeyError ["match_id"])) /\
  show_dashboard Sample.fs_no_ball "t20s_json" "T20 International Matches"
    (Some "India")
  = ([header "📊 T20 International Matches - India"],
     Throw (KeyError ["match_id"])).
Proof. repeat split; reflexivity. Qed.

(** ** The scenarios of the specification, run on the model *)

Example scenario_runs_distribution :
  runs_distribution Sample.ball_scenario
  = Ok [ (VInt 0, 1); (VInt 1, 0); (VInt 2, 0);
         (VInt 3, 0); (VInt 4, 1); (VInt 6, 1) ]%Z.
Proof. reflexivity. Qed.

Example scenario_filter_australia :
  team_filter (Some "Australia") Sample.ball Sample.info Sample.matches
  = Ok (Some [Some (VInt 1); Some (VInt 2)],
        Sample.ball, Sample.info, Sample.matches).
Proof. reflexivity. Qed.

Example scenario_filter_india :
  team_filter (Some "India") Sample.ball Sample.info Sample.matches
  = Ok (Some [Some (VInt 1)],
        mask_rows [true; true; false] Sample.ball,
        mask_rows [true; false] Sample.info,
        mask_rows [true; false] Sample.matches).
Proof. reflexivity. Qed.

Example scenario_no_awards_column :
  has_col Sample.matches_by_runs "player_of_match" = false /\
  awards_section Sample.matches_by_runs = pass.
Proof. split; reflexivity. Qed.

(** ** Row selection, read on the key column *)

Lemma select_mask_filter {A} (f : A -> bool) (xs : list A) :
  select_mask (map f xs) xs = filter f xs.
Proof.
  induction xs as [|x xs IH]; simpl; [reflexivity|].
  destruct (f x); rewrite IH; reflexivity.
Qed.

(** After [restrict], the [match_id] column holds exactly the cells of the
    original column that are among the ids, in their original order. *)
Lemma restrict_keeps_valid_ids (df df' : DataFrame) (ids : list cell)
    (m : Series) :
  col df "match_id" = Ok m ->
  restrict df ids = Ok df' ->
  exists m',
    col df' "match_id" = Ok m' /\
    values m' = filter (fun c => existsb (cell_eqb c) ids) (values m).
Proof.
  intros Hm H. unfold restrict in H. rewrite Hm in H. cbn [rbind] in H.
  inversion H; subst. exists (series_mask (isin m ids) m). split.
  - apply col_mask_rows. exact Hm.
  - rewrite values_series_mask. unfold isin. apply select_mask_filter.
Qed.

(* ================================================================= *)
(** * Part III: further properties of the code *)
(* ================================================================= *)

(** ** Listing teams and players (lines 22-32) *)

Lemma listing_ok (fs : FS) (d : string) (ds : list string) :
  (if path_exists fs d then
     (es <- listdir fs d ;;
      Ok (filter (fun e => isdir fs (path_join d [e])) es))%result
   else Ok []) = Ok ds ->
  forall e,
    In e ds <->
    (exists es, lookup fs d = Some (Dir es) /\ In e es) /\
    isdir fs (path_join d [e]) = true.
Proof.
  unfold path_exists, listdir.
  destruct (lookup fs d) as [[es|r]|]; cbn [rbind]; intros H e.
  - inversion H; subst. rewrite filter_In. split.
    + intros [Hin Hd]. split; [exists es; split; [reflexivity | exact Hin] | exact Hd].
    + intros [[es' [E Hin]] Hd]. inversion E; subst. split; assumption.
  - discriminate H.
  - inversion H; subst. split; [intros [] | intros [[es [E _]] _]; discriminate E].
Qed.

(** [get_teams] returns the entries of the category's [team] directory that
    are themselves directories, and nothing else. *)
Theorem get_teams_are_the_subdirectories (fs : FS) (folder : string)
    (teams : list string) :
  get_teams fs folder = Ok teams ->
  forall t,
    In t teams <->
    (exists es, lookup fs (team_path folder) = Some (Dir es) /\ In t es) /\
    isdir fs (path_join (team_path folder) [t]) = true.
Proof. unfold get_teams. fold (team_path folder). apply listing_ok. Qed.

Lemma get_teams_are_the_subdirectories_witness :
  In "Australia" ["India"; "Australia"] <->
  (exists es, lookup SamplePage.fs (team_path "t20s_json") = Some (Dir es)
              /\ In "Australia" es) /\
  isdir SamplePage.fs (path_join (team_path "t20s_json") ["Australia"]) = true.
Proof.
  apply (get_teams_are_the_subdirectories SamplePage.fs "t20s_json"
           ["India"; "Australia"]).
  reflexivity.
Defined.

(** Two edge cases of the listings.  When the [team] (or [player]) path
    does not exist the result is the empty list and nothing is raised; when
    it exists as a regular file, [os.listdir] raises [NotADirectoryError]
    on it and the listing fails with that exception. *)
Theorem listings_on_a_missing_or_regular_path (fs : FS) (folder : string)
    (team : option string) :
  (path_exists fs (team_path folder) = false -> get_teams fs folder = Ok []) /\
  (forall r, lookup fs (team_path folder) = Some (File r) ->
     get_teams fs folder = Raise (NotADirectoryError (team_path folder))) /\
  (path_exists fs (player_path folder) = false ->
   get_players fs folder team = Ok []) /\
  (forall r, lookup fs (player_path folder) = Some (File r) ->
     get_players fs folder team
     = Raise (NotADirectoryError (player_path folder))).
Proof.
  unfold get_teams, get_players.
  fold (team_path folder) (player_path folder).
  unfold path_exists, listdir. repeat split.
  - intros H. destruct (lookup fs (team_path folder)); [discriminate H | reflexivity].
  - intros r H. rewrite H. reflexivity.
  - intros H. destruct (lookup fs (player_path folder)); [discriminate H | reflexivity].
  - intros r H. rewrite H. reflexivity.
Qed.

(** ** The page script (lines 166-186) *)

Lemma nth_singleton (i : nat) : nth i [""] "" = "".
Proof. destruct i as [|[|i]]; reflexivity. Qed.

(** Whatever is picked in the first box is a key of [SUBFOLDERS] or the
    empty string, so [SUBFOLDERS[match_type]] cannot raise. *)
Lemma picked_type_has_title (pick_type : nat) :
  nonempty (nth pick_type type_options "") = true ->
  subfolder_title (nth pick_type type_options "")
  = Ok (subfolder_label (nth pick_type type_options "")).
Proof.
  do 8 (destruct pick_type as [|pick_type]; [intros; try reflexivity; discriminate|]).
  simpl. discriminate.
Qed.

Lemma nonempty_false (s : string) : nonempty s = false <-> s = "".
Proof.
  unfold nonempty. rewrite negb_false_iff. apply String.eqb_eq.
Qed.

Lemma nonempty_true (s : string) : nonempty s = true <-> s <> "".
Proof.
  unfold nonempty. rewrite negb_true_iff. apply String.eqb_neq.
Qed.

Lemma page_steps (fs : FS) (pick_type pick_team pick_player : nat)
    (teams players : list string) :
  team_options fs (nth pick_type type_options "") = Ok teams ->
  player_options fs (nth pick_type type_options "") (nth pick_team teams "")
  = Ok players ->
  page fs pick_type pick_team pick_player
  = (page_controls teams players
       ++ fst (dispatch fs (nth pick_type type_options "")
                 (nth pick_team teams "") (nth pick_player players "")),
     snd (dispatch fs (nth pick_type type_options "")
            (nth pick_team teams "") (nth pick_player players ""))).
Proof.
  intros Ht Hp. unfold page. rewrite Ht. cbn [attempt sbind say fst snd app].
  rewrite Hp. cbn [attempt sbind say fst snd app]. reflexivity.
Qed.

(** With no player picked the page shows one dashboard: the all-matches one,
    without team, when no match type is picked (the team and player boxes
    then offer nothing else than the empty entry), otherwise the picked
    category under its title from [SUBFOLDERS], narrowed to the picked team
    if there is one. *)
Theorem page_dashboard_of_selection (fs : FS)
    (pick_type pick_team pick_player : nat) (teams players : list string) :
  team_options fs (nth pick_type type_options "") = Ok teams ->
  player_options fs (nth pick_type type_options "") (nth pick_team teams "")
  = Ok players ->
  nth pick_player players "" = "" ->
  exists folder heading team,
    page fs pick_type pick_team pick_player
    = (page_controls teams players
         ++ fst (call (show_dashboard fs folder heading team)),
       snd (call (show_dashboard fs folder heading team))) /\
    (nth pick_type type_options "" = "" ->
     folder = "all_json" /\ heading = "All International Matches" /\
     team = None /\ teams = [""] /\ players = [""]) /\
    (nth pick_type type_options "" <> "" ->
     folder = nth pick_type type_options "" /\
     heading = subfolder_label folder /\
     team = (if nonempty (nth pick_team teams "")
             then Some (nth pick_team teams "") else None)).
Proof.
  intros Ht Hp Hplayer. rewrite (page_steps _ _ _ _ _ _ Ht Hp), Hplayer.
  unfold dispatch. change (nonempty "") with false. cbn [negb].
  rewrite !andb_true_r, !andb_false_r.
  destruct (nonempty (nth pick_type type_options "")) eqn:Emt.
  - rewrite (picked_type_has_title _ Emt). cbn [negb andb attempt sbind].
    apply nonempty_true in Emt.
    destruct (nonempty (nth pick_team teams "")) eqn:Etm; cbn [negb];
      eexists _, _, _; (split; [reflexivity|]);
      (split; [intros E; contradiction | intros _; repeat split; reflexivity]).
  - apply nonempty_false in Emt. revert Ht Hp. rewrite Emt.
    unfold team_options, player_options. change (nonempty "") with false.
    cbn [rbind]. intros Ht. inversion Ht; subst teams.
    rewrite nth_singleton. intros Hp. inversion Hp; subst players.
    change (nonempty "") with false. cbn [negb andb].
    exists "all_json", "All International Matches", None.
    split; [reflexivity|].
    split; [intros _; repeat split; reflexivity | intros E; contradiction].
Qed.

Lemma page_dashboard_of_selection_witness :
  exists folder heading team,
    page SamplePage.fs 5 1 0
    = (page_controls [""; "India"; "Australia"] [""; "V Kohli"; "JE Root"]
         ++ fst (call (show_dashboard SamplePage.fs folder heading team)),
       snd (call (show_dashboard SamplePage.fs folder heading team))) /\
    (nth 5 type_options "" = "" ->
     folder = "all_json" /\ heading = "All International Matches" /\
     team = None /\ [""; "India"; "Australia"] = [""]
     /\ [""; "V Kohli"; "JE Root"] = [""]) /\
    (nth 5 type_options "" <> "" ->
     folder = nth 5 type_options "" /\
     heading = subfolder_label folder /\
     team = (if nonempty (nth 1 [""; "India"; "Australia"] "")
             then Some (nth 1 [""; "India"; "Australia"] "") else None)).
Proof.
  apply (page_dashboard_of_selection SamplePage.fs 5 1 0
           [""; "India"; "Australia"] [""; "V Kohli"; "JE Root"]);
    reflexivity.
Defined.

(** A player can be picked without a team, because the player box does not
    depend on the team; no branch of the dispatch covers that selection and
    the page stays blank under its three boxes. *)
Theorem page_player_without_team_is_blank (fs : FS)
    (pick_type pick_team pick_player : nat) (teams players : list string) :
  team_options fs (nth pick_type type_options "") = Ok teams ->
  player_options fs (nth pick_type type_options "") (nth pick_team teams "")
  = Ok players ->
  nth pick_team teams "" = "" ->
  nth pick_player players "" <> "" ->
  page fs pick_type pick_team pick_player
  = (page_controls teams players, Next tt).
Proof.
  intros Ht Hp Hteam Hplayer.
  rewrite (page_steps _ _ _ _ _ _ Ht Hp), Hteam.
  apply nonempty_true in Hplayer. unfold dispatch. rewrite Hplayer.
  change (nonempty "") with false. cbn [negb].
  rewrite !andb_false_r. cbn [andb fst snd].
  rewrite app_nil_r. reflexivity.
Qed.

Lemma page_player_without_team_is_blank_witness :
  page SamplePage.fs 5 0 1
  = (page_controls [""; "India"; "Australia"] [""; "V Kohli"; "JE Root"],
     Next tt).
Proof.
  apply (page_player_without_team_is_blank SamplePage.fs 5 0 1
           [""; "India"; "Australia"] [""; "V Kohli"; "JE Root"]);
    try reflexivity.
  discriminate.
Defined.

(** With a match type, a team and a player picked the page shows the
    player heading and the "coming soon" note only; [show_dashboard] is not
    called and no table is read. *)
Theorem page_player_view_is_a_placeholder (fs : FS)
    (pick_type pick_team pick_player : nat) (teams players : list string) :
  team_options fs (nth pick_type type_options "") = Ok teams ->
  player_options fs (nth pick_type type_options "") (nth pick_team teams "")
  = Ok players ->
  nth pick_team teams "" <> "" ->
  nth pick_player players "" <> "" ->
  page fs pick_type pick_team pick_player
  = (page_controls teams players
       ++ [ dashboard (header (player_heading (nth pick_player players "")
                                 (nth pick_team teams "")
                                 (subfolder_label (nth pick_type type_options ""))));
            info "Player-specific charts coming soon!" ],
     Next tt).
Proof.
  intros Ht Hp Hteam Hplayer.
  rewrite (page_steps _ _ _ _ _ _ Ht Hp).
  apply nonempty_true in Hteam, Hplayer.
  assert (Hmt : nonempty (nth pick_type type_options "") = true).
  { destruct (nonempty (nth pick_type type_options "")) eqn:E; [reflexivity|].
    apply nonempty_false in E. revert Ht. rewrite E.
    unfold team_options. change (nonempty "") with false. cbn [rbind].
    intros Ht. inversion Ht; subst teams.
    rewrite nth_singleton in Hteam. discriminate Hteam. }
  unfold dispatch. rewrite Hmt, Hteam, Hplayer.
  rewrite (picked_type_has_title _ Hmt). reflexivity.
Qed.

Lemma page_player_view_is_a_placeholder_witness :
  page SamplePage.fs 5 1 1
  = (page_controls [""; "India"; "Australia"] [""; "V Kohli"; "JE Root"]
       ++ [ dashboard (header
              "⭐ Player Analysis: V Kohli (India, T20 International Matches)");
            info "Player-specific charts coming soon!" ],
     Next tt).
Proof.
  apply (page_player_view_is_a_placeholder SamplePage.fs 5 1 1
           [""; "India"; "Australia"] [""; "V Kohli"; "JE Root"]);
    try reflexivity; discriminate.
Defined.

Lemma listings_on_a_missing_or_regular_path_witness :
  get_teams Sample.fs "ipl_json" = Ok [] /\
  get_teams SamplePage.fs_team_is_file "t20s_json"
  = Raise (NotADirectoryError (team_path "t20s_json")).
Proof.
  split.
  - apply (proj1 (listings_on_a_missing_or_regular_path Sample.fs "ipl_json" None)).
    reflexivity.
  - apply (proj1 (proj2 (listings_on_a_missing_or_regular_path
                           SamplePage.fs_team_is_file "t20s_json" None))
             (Ok empty_frame)).
    reflexivity.
Defined.

(** ** How a render ends (lines 36-53) *)

Ltac silent :=
  repeat first
    [ apply Forall_nil
    | apply Forall_output_eval
    | apply Forall_output_st; first [exact I | reflexivity]
    | apply Forall_output_bind; [|intros ?]
    | match goal with
      | |- Forall _ (fst (if ?b then _ else _)) => destruct b
      end ].

Lemma upto_toss_Forall (P : widget -> Prop) fs folder title team :
  P (header (header_text title team)) ->
  P no_data_warning ->
  (forall b, Forall P (fst (ball_sections b))) ->
  (forall d v, Forall P (fst (player_sections fs d team v))) ->
  (forall i, Forall P (fst (toss_sections i))) ->
  Forall P (fst (dashboard_upto_toss fs folder title team)).
Proof.
  intros Hh Hw Hb Hp Ht. unfold dashboard_upto_toss.
  apply Forall_output_bind; [apply Forall_output_st; exact Hh | intros _].
  apply Forall_output_bind; [apply Forall_output_eval | intros t].
  destruct (empty (snd (fst (fst t)))).
  - apply Forall_output_bind; [apply Forall_output_st; exact Hw | intros _].
    apply Forall_nil.
  - apply Forall_output_bind; [apply Hb | intros _].
    apply Forall_output_bind; [apply Hp | intros _].
    apply Forall_output_bind; [apply Ht | intros _].
    apply Forall_nil.
Qed.

Lemma dashboard_load_failure (fs : FS) (folder title : string)
    (team : option string) (e : exn) :
  load_tables fs folder team = Raise e ->
  show_dashboard fs folder title team
  = ([header (header_text title team)], Throw e).
Proof.
  intros H. unfold show_dashboard, dashboard_upto_toss. rewrite H. reflexivity.
Qed.

Lemma dashboard_empty_ball (fs : FS) (folder title : string)
    (team : option string) t :
  load_tables fs folder team = Ok t ->
  empty (snd (fst (fst t))) = true ->
  show_dashboard fs folder title team
  = ([header (header_text title team); no_data_warning], Return).
Proof.
  intros H He. unfold show_dashboard, dashboard_upto_toss.
  rewrite H. cbn [eval bind st fst snd app]. rewrite He. reflexivity.
Qed.

Lemma sections_never_warn fs folder title team t :
  load_tables fs folder team = Ok t ->
  empty (snd (fst (fst t))) = false ->
  Forall not_warning (fst (show_dashboard fs folder title team)).
Proof.
  intros H He. unfold show_dashboard.
  apply Forall_output_bind.
  - unfold dashboard_upto_toss.
    apply Forall_output_bind; [apply Forall_output_st; exact I | intros _].
    apply Forall_output_bind_ending; [apply Forall_output_eval|].
    intros t' Ht'. rewrite H in Ht'. simpl in Ht'. inversion Ht'; subst t'.
    rewrite He.
    unfold ball_sections, pie_and_table, player_sections, toss_sections, pass.
    silent.
  - intros m.
    unfold awards_section, winners_section, margins_section, pass.
    silent.
Qed.

(** The "no ball-by-ball data" warning is written exactly when the three
    tables load (and pass the team filter) and the ball-events table is then
    empty; in that case the page holds the header and the warning, nothing
    else, and the call returns. *)
Theorem warning_iff_no_ball_rows (fs : FS) (folder title : string)
    (team : option string) :
  In no_data_warning (output (show_dashboard fs folder title team)) <->
  (exists t, load_tables fs folder team = Ok t /\
             empty (snd (fst (fst t))) = true) /\
  show_dashboard fs folder title team
  = ([header (header_text title team); no_data_warning], Return).
Proof.
  unfold output. split.
  - intros Hin. destruct (load_tables fs folder team) as [t|e] eqn:H.
    + destruct (empty (snd (fst (fst t)))) eqn:He.
      * split; [exists t; split; [reflexivity | exact He]|].
        eapply dashboard_empty_ball; eassumption.
      * pose proof (sections_never_warn fs folder title team t H He) as Hs.
        rewrite Forall_forall in Hs. destruct (Hs _ Hin).
    + rewrite (dashboard_load_failure _ _ _ _ _ H) in Hin.
      destruct Hin as [Hin|[]]. discriminate Hin.
  - intros [_ ->]. right. left. reflexivity.
Qed.

Lemma warning_iff_no_ball_rows_witness :
  In no_data_warning
     (output (show_dashboard Sample.fs_no_ball "t20s_json" "T20" None)).
Proof.
  apply (proj2 (warning_iff_no_ball_rows Sample.fs_no_ball "t20s_json" "T20" None)).
  split; [|reflexivity].
  exists (None, empty_frame, Sample.info, Sample.matches).
  split; reflexivity.
Defined.

(** A category none of whose three files exists renders as the header and
    the warning, for every team: nothing is raised. *)
Theorem empty_category_shows_the_warning (fs : FS) (folder title : string)
    (team : option string) :
  path_exists fs (ball_path folder) = false ->
  path_exists fs (info_path folder) = false ->
  path_exists fs (matches_path folder) = false ->
  show_dashboard fs folder title team
  = ([header (header_text title team); no_data_warning], Return).
Proof.
  intros Hb Hi Hm.
  apply (dashboard_empty_ball _ _ _ _ (None, empty_frame, empty_frame, empty_frame));
    [|reflexivity].
  unfold load_tables, load_csv.
  fold (ball_path folder) (info_path folder) (matches_path folder).
  rewrite Hb, Hi, Hm. cbn [rbind]. unfold team_filter.
  rewrite andb_false_r. reflexivity.
Qed.

Lemma empty_category_shows_the_warning_witness :
  show_dashboard Sample.fs "ipl_json" "IPL Matches" (Some "India")
  = ([header "📊 IPL Matches - India"; no_data_warning], Return).
Proof.
  apply (empty_category_shows_the_warning Sample.fs "ipl_json" "IPL Matches"
           (Some "India")); reflexivity.
Defined.

(** A file of the category that exists but cannot be read (a parse error, a
    directory in its place) stops the render right after the header, with
    the exception [pd.read_csv] raised. *)
Theorem unreadable_table_stops_after_header (fs : FS) (folder title : string)
    (team : option string) (e : exn) :
  path_exists fs (ball_path folder) = true ->
  read_csv fs (ball_path folder) = Raise e ->
  show_dashboard fs folder title team
  = ([header (header_text title team)], Throw e).
Proof.
  intros Hex Hr. apply dashboard_load_failure.
  unfold load_tables, load_csv. fold (ball_path folder).
  rewrite Hex, Hr. reflexivity.
Qed.

Lemma unreadable_table_stops_after_header_witness :
  show_dashboard SamplePage.fs_bad_ball "t20s_json" "T20" None
  = ([header "📊 T20"], Throw (ParserError "Error tokenizing data")).
Proof.
  apply (unreadable_table_stops_after_header SamplePage.fs_bad_ball
           "t20s_json" "T20" None); reflexivity.
Defined.

(** ** The sections on the match list (lines 145-164) *)

Lemma counts_of_present (df : DataFrame) (c : string) :
  has_col df c = true -> exists vc, counts_of df c = Ok vc.
Proof.
  unfold has_col, counts_of, col. destruct (find_col df c) as [s|].
  - intros _. exists (value_counts s). reflexivity.
  - discriminate.
Qed.

(** The awards section is guarded by the presence of its column and cannot
    stop the render. *)
Lemma awards_section_never_fails (matches_df : DataFrame) :
  snd (awards_section matches_df) = Next tt.
Proof.
  unfold awards_section.
  destruct (negb (empty matches_df)); cbn [andb]; [|reflexivity].
  destruct (has_col matches_df "player_of_match") eqn:E; [|reflexivity].
  destruct (counts_of_present _ _ E) as [vc Hvc]. rewrite Hvc. reflexivity.
Qed.

Lemma upto_toss_lacks (t : string) fs folder title team :
  t = winners_title \/ t = margins_title ->
  Forall (not_heading t) (fst (dashboard_upto_toss fs folder title team)).
Proof.
  intros [-> | ->]; apply upto_toss_Forall; try exact I; intros;
    unfold ball_sections, pie_and_table, player_sections, toss_sections, pass;
    silent.
Qed.

Lemma awards_lacks (t : string) (matches_df : DataFrame) :
  t = winners_title \/ t = margins_title ->
  Forall (not_heading t) (fst (awards_section matches_df)).
Proof.
  intros [-> | ->]; unfold awards_section, pass; silent.
Qed.

Lemma not_heading_absent (t : string) (l : list widget) :
  Forall (not_heading t) l -> ~ In (subheader t) l.
Proof.
  intros H Hin. rewrite Forall_forall in H. specialize (H _ Hin).
  simpl in H. rewrite String.eqb_refl in H. discriminate H.
Qed.

Lemma winners_section_headings (matches_df : DataFrame) :
  (In (subheader winners_title) (fst (winners_section matches_df)) <->
   empty matches_df = false /\ has_col matches_df "outcome.winner" = true) /\
  (In (subheader margins_title) (fst (winners_section matches_df)) <->
   empty matches_df = false /\ has_col matches_df "outcome.winner" = true /\
   (has_col matches_df "outcome.by.wickets"
    || has_col matches_df "outcome.by.runs") = true).
Proof.
  unfold winners_section.
  destruct (empty matches_df); cbn [negb andb].
  - simpl. split; (split; [intros [] | intros [H _]; discriminate H]).
  - destruct (has_col matches_df "outcome.winner") eqn:E.
    + destruct (counts_of_present _ _ E) as [vc Hvc]. rewrite Hvc.
      cbn [eval bind st fst snd app]. split.
      * split; [intros _; split; reflexivity | intros _; left; reflexivity].
      * unfold margins_section.
        destruct (has_col matches_df "outcome.by.wickets"
                  || has_col matches_df "outcome.by.runs").
        -- split; [intros _; repeat split; reflexivity|].
           intros _. right. right. right. apply output_bind. left. left.
           reflexivity.
        -- simpl. split.
           ++ intros [H|[H|[H|[]]]]; discriminate H.
           ++ intros [_ [_ H]]. discriminate H.
    + simpl. split; (split; [intros [] | intros [_ H]; try discriminate H;
                                        destruct H as [H _]; discriminate H]).
Qed.

(** The "Match Winners" heading is written exactly when the render reaches
    line 154 with a non-empty match list that has an [outcome.winner]
    column.  The "Win Margins" heading needs all of that and one of the two
    margin columns: a match list without [outcome.winner] gets no margins,
    whatever margin columns it has. *)
Theorem margins_need_the_winner_column (fs : FS) (folder title : string)
    (team : option string) :
  (In (subheader winners_title) (output (show_dashboard fs folder title team))
   <->
   exists m,
     ending (dashboard_upto_toss fs folder title team) = Next m /\
     empty m = false /\ has_col m "outcome.winner" = true) /\
  (In (subheader margins_title) (output (show_dashboard fs folder title team))
   <->
   exists m,
     ending (dashboard_upto_toss fs folder title team) = Next m /\
     empty m = false /\ has_col m "outcome.winner" = true /\
     (has_col m "outcome.by.wickets" || has_col m "outcome.by.runs") = true).
Proof.
  unfold output, ending, show_dashboard.
  assert (Hgen : forall t, t = winners_title \/ t = margins_title ->
            forall Q : DataFrame -> Prop,
              (forall m, In (subheader t) (fst (winners_section m)) <-> Q m) ->
              (In (subheader t)
                  (fst (bind (dashboard_upto_toss fs folder title team)
                          (fun m => bind (awards_section m)
                                      (fun _ => winners_section m))))
               <-> exists m, snd (dashboard_upto_toss fs folder title team) = Next m
                             /\ Q m)).
  { intros t Ht Q HQ. rewrite output_bind. split.
    - intros [H|[m [Hm H]]].
      + exfalso. exact (not_heading_absent _ _ (upto_toss_lacks t _ _ _ _ Ht) H).
      + apply output_bind in H. destruct H as [H|[[] [_ H]]].
        * exfalso. exact (not_heading_absent _ _ (awards_lacks t m Ht) H).
        * exists m. split; [exact Hm | apply HQ; exact H].
    - intros [m [Hm H]]. right. exists m. split; [exact Hm|].
      apply output_bind. right. exists tt.
      split; [apply awards_section_never_fails | apply HQ; exact H]. }
  split.
  - apply (Hgen winners_title (or_introl eq_refl)
             (fun m => empty m = false /\ has_col m "outcome.winner" = true)).
    intros m. apply winners_section_headings.
  - apply (Hgen margins_title (or_intror eq_refl)
             (fun m => empty m = false /\ has_col m "outcome.winner" = true /\
                       (has_col m "outcome.by.wickets"
                        || has_col m "outcome.by.runs") = true)).
    intros m. apply winners_section_headings.
Qed.

Lemma margins_need_the_winner_column_witness :
  In (subheader margins_title)
     (output (show_dashboard Sample.fs "t20s_json" "T20" None)) /\
  ~ In (subheader margins_title)
       (output (show_dashboard SamplePage.fs_no_winner "t20s_json" "T20" None)).
Proof.
  split.
  - apply (proj2 (margins_need_the_winner_column Sample.fs "t20s_json" "T20" None)).
    exists Sample.matches. repeat split; reflexivity.
  - intros H.
    apply (proj2 (margins_need_the_winner_column SamplePage.fs_no_winner
                    "t20s_json" "T20" None)) in H.
    destruct H as [m [Hm [_ [Hw _]]]].
    vm_compute in Hm. inversion Hm; subst m. discriminate Hw.
Defined.

(** ** The toss analysis (lines 128-143) *)

(** The toss analysis can stop the render in one way only: the info table
    has rows but no [toss_winner] column, and line 131 raises [KeyError]
    under the first heading. *)
Theorem toss_sections_only_failure (info_df : DataFrame) (e : exn) :
  ending (toss_sections info_df) = Throw e <->
  empty info_df = false /\ has_col info_df "toss_winner" = false /\
  e = KeyError ["toss_winner"] /\
  output (toss_sections info_df) = [subheader toss_wins_title].
Proof.
  unfold ending, output, toss_sections.
  destruct (empty info_df); cbn [negb].
  - simpl. split; [discriminate | intros [H _]; discriminate H].
  - unfold counts_of, toss_decision_counts, has_col, col.
    destruct (find_col info_df "toss_winner") as [w|]; cbn [rbind eval bind st fst snd app].
    + split; [|intros [_ [H _]]; discriminate H].
      destruct (find_col info_df "toss_decision"); simpl; discriminate.
    + split.
      * intros H. inversion H; subst. repeat split; reflexivity.
      * intros [_ [_ [-> _]]]. reflexivity.
Qed.

Lemma toss_sections_only_failure_witness :
  ending (toss_sections SamplePage.info_no_toss) = Throw (KeyError ["toss_winner"]).
Proof.
  apply (proj2 (toss_sections_only_failure SamplePage.info_no_toss
                  (KeyError ["toss_winner"]))).
  repeat split; reflexivity.
Defined.

(** The "Toss Decision" heading is written before its columns are checked:
    an info table with [toss_winner] but without [toss_decision] gets the
    toss-wins chart and table, then the bare decision heading with no chart
    and no table under it. *)
Theorem toss_decision_heading_without_table (info_df : DataFrame) (w : Series) :
  empty info_df = false ->
  col info_df "toss_winner" = Ok w ->
  has_col info_df "toss_decision" = false ->
  toss_sections info_df
  = ([ subheader toss_wins_title;
       bar_chart (CountTable "team" "count" (value_counts w));
       table (CountTable "team" "count" (value_counts w));
       subheader toss_decision_title ],
     Next tt).
Proof.
  intros He Hw Hd. unfold toss_sections, counts_of.
  rewrite He, Hw, (col_present _ _ _ Hw), Hd. reflexivity.
Qed.

Lemma toss_decision_heading_without_table_witness :
  toss_sections SamplePage.info_no_decision
  = ([ subheader toss_wins_title;
       bar_chart (CountTable "team" "count"
                    [(VStr "India", 1%Z); (VStr "Australia", 1%Z)]);
       table (CountTable "team" "count"
                [(VStr "India", 1%Z); (VStr "Australia", 1%Z)]);
       subheader toss_decision_title ],
     Next tt).
Proof.
  apply (toss_decision_heading_without_table SamplePage.info_no_decision
           (StrS [Some "India"; Some "Australia"])); reflexivity.
Defined.

(** ** Row selection keeps a frame well formed *)

Lemma select_mask_length {A B} (mask : list bool) (xs : list A) (ys : list B) :
  List.length xs = List.length ys ->
  List.length (select_mask mask xs) = List.length (select_mask mask ys).
Proof.
  revert xs ys. induction mask as [|b m IH]; intros [|x xs] [|y ys] H;
    simpl in *; try reflexivity; try discriminate H.
  injection H as H. destruct b; simpl; rewrite (IH xs ys H); reflexivity.
Qed.

Lemma select_mask_length_le {A} (mask : list bool) (xs : list A) :
  List.length (select_mask mask xs) <= List.length xs.
Proof.
  revert xs. induction mask as [|b m IH]; intros [|x xs]; simpl; try lia.
  specialize (IH xs). destruct b; simpl; lia.
Qed.

Lemma select_mask_in {A} (mask : list bool) (xs : list A) (x : A) :
  In x (select_mask mask xs) -> In x xs.
Proof.
  revert xs. induction mask as [|b m IH]; intros [|y xs]; simpl; try tauto.
  destruct b; simpl; intros H.
  - destruct H as [H|H]; [left; exact H | right; apply IH; exact H].
  - right. apply IH. exact H.
Qed.

Lemma size_series_mask (mask : list bool) (s s' : Series) :
  size s = size s' ->
  size (series_mask mask s) = size (series_mask mask s').
Proof. destruct s, s'; simpl; apply select_mask_length. Qed.

Lemma size_series_mask_le (mask : list bool) (s : Series) :
  size (series_mask mask s) <= size s.
Proof. destruct s; simpl; apply select_mask_length_le. Qed.

Lemma len_in_rectangular (df : DataFrame) (c : string) (s : Series) :
  rectangular df -> In (c, s) df -> size s = len df.
Proof. intros H. apply H. Qed.

Lemma mask_rows_shape (mask : list bool) (df : DataFrame) :
  rectangular df ->
  rectangular (mask_rows mask df) /\
  columns (mask_rows mask df) = columns df /\
  len (mask_rows mask df) <= len df.
Proof.
  intros Hrect. split; [|split].
  - intros c s' Hin. unfold mask_rows in Hin. apply in_map_iff in Hin.
    destruct Hin as [[c0 s] [E Hin]]. simpl in E. inversion E; subst.
    destruct df as [|[c1 s1] df]; [destruct Hin|].
    simpl. apply size_series_mask.
    rewrite (Hrect c s Hin). reflexivity.
  - unfold columns, mask_rows. rewrite map_map. reflexivity.
  - destruct df as [|[c1 s1] df]; simpl; [lia | apply size_series_mask_le].
Qed.

(** Selecting rows with a mask keeps a frame rectangular, keeps its columns
    and their order, and never adds a row. *)
Theorem mask_rows_keeps_the_frame (mask : list bool) (df : DataFrame) :
  rectangular df ->
  rectangular (mask_rows mask df) /\
  columns (mask_rows mask df) = columns df /\
  len (mask_rows mask df) <= len df.
Proof. apply mask_rows_shape. Qed.

Lemma mask_rows_keeps_the_frame_witness :
  rectangular (mask_rows [true; false; true] Sample.ball) /\
  columns (mask_rows [true; false; true] Sample.ball) = columns Sample.ball /\
  len (mask_rows [true; false; true] Sample.ball) <= len Sample.ball.
Proof.
  apply (mask_rows_keeps_the_frame [true; false; true] Sample.ball).
  intros c s H. simpl in H.
  repeat (destruct H as [H|H]; [inversion H; subst; reflexivity|]).
  destruct H.
Defined.

Lemma restrict_keeps_the_frame (df df' : DataFrame) (ids : list cell) :
  rectangular df -> restrict df ids = Ok df' ->
  rectangular df' /\ columns df' = columns df /\ len df' <= len df.
Proof.
  intros Hrect H. unfold restrict in H. apply rbind_ok in H.
  destruct H as [m [_ H]]. inversion H; subst.
  apply mask_rows_shape. exact Hrect.
Qed.

Lemma team_filter_parts team ball_df info_df matches_df valid b' i' m' :
  team_filter team ball_df info_df matches_df = Ok (Some valid, b', i', m') ->
  exists teams mask mids,
    col matches_df "teams" = Ok teams /\
    str_contains teams (team_text team) = Ok mask /\
    col matches_df "match_id" = Ok mids /\
    valid = dedup cell_eqb (select_mask mask (values mids)) /\
    restrict ball_df valid = Ok b' /\
    restrict info_df valid = Ok i' /\
    restrict matches_df valid = Ok m'.
Proof.
  unfold team_filter.
  destruct (truthy team && negb (empty matches_df)); [|discriminate].
  intros H.
  apply rbind_ok in H. destruct H as [teams [Hteams H]].
  apply rbind_ok in H. destruct H as [mask [Hmask H]].
  apply rbind_ok in H. destruct H as [ids [Hids H]].
  apply rbind_ok in H. destruct H as [b [Hb H]].
  apply rbind_ok in H. destruct H as [i [Hi H]].
  apply rbind_ok in H. destruct H as [m [Hm H]].
  inversion H; subst.
  apply col_ok in Hids. rewrite find_col_mask_rows in Hids.
  destruct (find_col matches_df "match_id") as [mids|] eqn:Emids;
    [|discriminate Hids].
  simpl in Hids. inversion Hids; subst ids.
  unfold unique in *. rewrite values_series_mask in *.
  exists teams, mask, mids.
  split; [exact Hteams|]. split; [exact Hmask|].
  split; [apply col_ok; exact Emids|]. split; [reflexivity|].
  split; [exact Hb|]. split; [exact Hi | exact Hm].
Qed.

(** Whenever the team filter succeeds, each of the three tables it returns
    is still rectangular, has the columns it had, in the same order, and has
    no more rows than before. *)
Theorem team_filter_keeps_the_frames (team : option string)
    (ball_df info_df matches_df : DataFrame) (valid : option (list cell))
    (b' i' m' : DataFrame) :
  rectangular ball_df -> rectangular info_df -> rectangular matches_df ->
  team_filter team ball_df info_df matches_df = Ok (valid, b', i', m') ->
  (rectangular b' /\ columns b' = columns ball_df /\ len b' <= len ball_df) /\
  (rectangular i' /\ columns i' = columns info_df /\ len i' <= len info_df) /\
  (rectangular m' /\ columns m' = columns matches_df
   /\ len m' <= len matches_df).
Proof.
  intros Hb Hi Hm H. destruct valid as [valid|].
  - apply team_filter_parts in H.
    destruct H as [teams [mask [mids [_ [_ [_ [_ [Rb [Ri Rm]]]]]]]]].
    repeat split;
      first [ apply (restrict_keeps_the_frame _ _ _ Hb Rb)
            | apply (restrict_keeps_the_frame _ _ _ Hi Ri)
            | apply (restrict_keeps_the_frame _ _ _ Hm Rm) ].
  - unfold team_filter in H.
    destruct (truthy team && negb (empty matches_df)).
    + apply rbind_ok in H. destruct H as [? [_ H]].
      apply rbind_ok in H. destruct H as [? [_ H]].
      apply rbind_ok in H. destruct H as [? [_ H]].
      apply rbind_ok in H. destruct H as [? [_ H]].
      apply rbind_ok in H. destruct H as [? [_ H]].
      apply rbind_ok in H. destruct H as [? [_ H]].
      discriminate H.
    + inversion H; subst. repeat split; try assumption; lia.
Qed.

Ltac rectangular_by_cases :=
  let c := fresh "c" in
  let s := fresh "s" in
  let H := fresh "H" in
  intros c s H; simpl in H;
  repeat (destruct H as [H|H]; [inversion H; subst; reflexivity|]);
  destruct H.

Lemma team_filter_keeps_the_frames_witness :
  (rectangular (mask_rows [true; true; false] Sample.ball) /\
   columns (mask_rows [true; true; false] Sample.ball) = columns Sample.ball /\
   len (mask_rows [true; true; false] Sample.ball) <= len Sample.ball) /\
  (rectangular (mask_rows [true; false] Sample.info) /\
   columns (mask_rows [true; false] Sample.info) = columns Sample.info /\
   len (mask_rows [true; false] Sample.info) <= len Sample.info) /\
  (rectangular (mask_rows [true; false] Sample.matches) /\
   columns (mask_rows [true; false] Sample.matches) = columns Sample.matches /\
   len (mask_rows [true; false] Sample.matches) <= len Sample.matches).
Proof.
  apply (team_filter_keeps_the_frames (Some "India")
           Sample.ball Sample.info Sample.matches (Some [Some (VInt 1)])).
  - rectangular_by_cases.
  - rectangular_by_cases.
  - rectangular_by_cases.
  - reflexivity.
Defined.

(** ** Distinct values *)

Section Dedup.

Context {A : Type} (eqb : A -> A -> bool).
Hypothesis eqb_spec : forall a b, eqb a b = true <-> a = b.

Lemma dedup_In (l : list A) (x : A) : In x (dedup eqb l) <-> In x l.
Proof.
  induction l as [|y l IH]; simpl; [reflexivity|].
  rewrite filter_In, IH. split.
  - intros [H|[H _]]; [left; exact H | right; exact H].
  - intros [H|H]; [left; exact H|].
    destruct (eqb y x) eqn:E.
    + left. apply eqb_spec. exact E.
    + right. split; [exact H | reflexivity].
Qed.

Lemma dedup_NoDup (l : list A) : NoDup (dedup eqb l).
Proof.
  induction l as [|y l IH]; simpl; constructor.
  - rewrite filter_In. intros [_ H].
    assert (E : eqb y y = true) by (apply eqb_spec; reflexivity).
    rewrite E in H. discriminate H.
  - apply NoDup_filter. exact IH.
Qed.

(** Counting over a duplicate-free list of keys that covers the data
    counts every element once. *)
Lemma hit_exactly_once (x : A) (ks : list A) :
  NoDup ks -> In x ks ->
  total (map (fun k => if eqb k x then 1 else 0)%Z ks) = 1%Z.
Proof.
  induction 1 as [|k ks Hk Hnd IH]; simpl; intros Hin; [destruct Hin|].
  assert (Hzero : forall l, ~ In x l ->
            total (map (fun k => if eqb k x then 1 else 0)%Z l) = 0%Z).
  { induction l as [|a l IHl]; simpl; intros Hn; [reflexivity|].
    destruct (eqb a x) eqn:E.
    - apply eqb_spec in E. exfalso. apply Hn. left. exact E.
    - rewrite IHl; [reflexivity|]. intros H. apply Hn. right. exact H. }
  destruct (eqb k x) eqn:E.
  - apply eqb_spec in E. subst k. rewrite (Hzero ks Hk). reflexivity.
  - destruct Hin as [Hin|Hin].
    + subst k. assert (E' : eqb x x = true) by (apply eqb_spec; reflexivity).
      rewrite E' in E. discriminate E.
    + rewrite (IH Hin). reflexivity.
Qed.

Lemma counts_add_up (ks l : list A) :
  NoDup ks -> (forall x, In x l -> In x ks) ->
  total (map (fun k => Z.of_nat (count_eq eqb k l)) ks)
  = Z.of_nat (List.length l).
Proof.
  intros Hnd. unfold count_eq. induction l as [|x l IH]; intros Hsub.
  - clear Hsub Hnd. simpl.
    induction ks as [|k ks IHk]; simpl; [reflexivity | rewrite IHk; reflexivity].
  - rewrite (map_ext _ (fun k =>
      ((if eqb k x then 1 else 0)
       + Z.of_nat (List.length (filter (eqb k) l)))%Z)).
    + rewrite total_pointwise_add, IH.
      * rewrite (hit_exactly_once x ks Hnd (Hsub x (or_introl eq_refl))).
        simpl List.length. lia.
      * intros y Hy. apply Hsub. right. exact Hy.
    + intros k. simpl. destruct (eqb k x); simpl List.length; lia.
Qed.

End Dedup.

(** [unique] keeps each value of the column once: the ids it yields are
    pairwise distinct and are exactly the cells of the column (a null
    counts as a value). *)
Theorem unique_is_duplicate_free (s : Series) :
  NoDup (unique s) /\ forall c, In c (unique s) <-> In c (values s).
Proof.
  split.
  - apply (dedup_NoDup cell_eqb cell_eqb_eq).
  - intros c. apply (dedup_In cell_eqb cell_eqb_eq).
Qed.

(** ** What the team filter guarantees (lines 44-49) *)

Lemma isin_true (ids : list cell) (c : cell) :
  existsb (cell_eqb c) ids = true <-> In c ids.
Proof.
  rewrite existsb_exists. split.
  - intros [x [Hx E]]. apply cell_eqb_eq in E. subst. exact Hx.
  - intros H. exists c. split; [exact H | apply cell_eqb_eq; reflexivity].
Qed.

(** After a successful filter, [valid_match_ids] has no duplicate; every
    [match_id] left in the ball-events and info tables is one of them; and
    the ids left in the match list are exactly [valid_match_ids]. *)
Theorem team_filter_tables_agree_on_ids (team : option string)
    (ball_df info_df matches_df : DataFrame) (valid : list cell)
    (b' i' m' : DataFrame) :
  team_filter team ball_df info_df matches_df = Ok (Some valid, b', i', m') ->
  NoDup valid /\
  exists bs is_ ms,
    col b' "match_id" = Ok bs /\
    col i' "match_id" = Ok is_ /\
    col m' "match_id" = Ok ms /\
    (forall c, In c (values bs) -> In c valid) /\
    (forall c, In c (values is_) -> In c valid) /\
    (forall c, In c (values ms) <-> In c valid).
Proof.
  intros H. apply team_filter_parts in H.
  destruct H as [teams [mask [mids [_ [_ [Hmids [Hv [Rb [Ri Rm]]]]]]]]].
  split; [subst valid; apply (dedup_NoDup cell_eqb cell_eqb_eq)|].
  assert (Hcol : forall df df', restrict df valid = Ok df' ->
            exists m, col df "match_id" = Ok m).
  { intros df df' R. unfold restrict in R. apply rbind_ok in R.
    destruct R as [m [Hm _]]. exists m. exact Hm. }
  destruct (Hcol _ _ Rb) as [bm Hbm]. destruct (Hcol _ _ Ri) as [im Him].
  destruct (restrict_keeps_valid_ids _ _ _ _ Hbm Rb) as [bs [Hbs Ebs]].
  destruct (restrict_keeps_valid_ids _ _ _ _ Him Ri) as [is_ [His Eis]].
  destruct (restrict_keeps_valid_ids _ _ _ _ Hmids Rm) as [ms [Hms Ems]].
  exists bs, is_, ms. repeat split; try assumption.
  - intros c Hc. rewrite Ebs in Hc. apply filter_In in Hc.
    apply isin_true. exact (proj2 Hc).
  - intros c Hc. rewrite Eis in Hc. apply filter_In in Hc.
    apply isin_true. exact (proj2 Hc).
  - intros Hc. rewrite Ems in Hc. apply filter_In in Hc.
    apply isin_true. exact (proj2 Hc).
  - intros Hc. rewrite Ems. apply filter_In. split; [|apply isin_true; exact Hc].
    subst valid. apply (proj1 (dedup_In cell_eqb cell_eqb_eq _ _)) in Hc.
    apply select_mask_in in Hc. exact Hc.
Qed.

Lemma team_filter_tables_agree_on_ids_witness :
  NoDup [Some (VInt 1)] /\
  exists bs is_ ms,
    col (mask_rows [true; true; false] Sample.ball) "match_id" = Ok bs /\
    col (mask_rows [true; false] Sample.info) "match_id" = Ok is_ /\
    col (mask_rows [true; false] Sample.matches) "match_id" = Ok ms /\
    (forall c, In c (values bs) -> In c [Some (VInt 1)]) /\
    (forall c, In c (values is_) -> In c [Some (VInt 1)]) /\
    (forall c, In c (values ms) <-> In c [Some (VInt 1)]).
Proof.
  apply (team_filter_tables_agree_on_ids (Some "India")
           Sample.ball Sample.info Sample.matches).
  reflexivity.
Defined.

Lemma select_mask_all_true {A} (mask : list bool) (xs : list A) :
  Forall (fun b => b = true) mask ->
  List.length xs <= List.length mask ->
  select_mask mask xs = xs.
Proof.
  intros Hall. revert xs. induction Hall as [|b m Hb Hm IH]; intros [|x xs] Hlen;
    simpl in *; try reflexivity; try lia.
  subst b. rewrite IH; [reflexivity | lia].
Qed.

Lemma mask_rows_all_true (mask : list bool) (df : DataFrame) :
  Forall (fun b => b = true) mask ->
  (forall c s, In (c, s) df -> size s <= List.length mask) ->
  mask_rows mask df = df.
Proof.
  intros Hall Hsize. unfold mask_rows.
  rewrite <- (map_id df) at 2. apply map_ext_in.
  intros [c s] Hin. simpl. f_equal.
  specialize (Hsize c s Hin).
  destruct s; simpl in *; rewrite (select_mask_all_true _ _ Hall Hsize);
    reflexivity.
Qed.

Lemma isin_length (s : Series) (ids : list cell) :
  List.length (isin s ids) = size s.
Proof. unfold isin. rewrite length_map. apply values_length. Qed.

(** Restricting a table to a set of ids a second time changes nothing: the
    filter has no effect on a table that is already filtered. *)
Theorem restrict_twice_is_restrict_once (df df' : DataFrame) (ids : list cell) :
  rectangular df ->
  restrict df ids = Ok df' ->
  restrict df' ids = Ok df'.
Proof.
  intros Hrect H.
  destruct (restrict_keeps_the_frame _ _ _ Hrect H) as [Hrect' _].
  unfold restrict in H. apply rbind_ok in H. destruct H as [m [Hm H]].
  inversion H; subst df'. clear H.
  unfold restrict. rewrite (col_mask_rows _ _ _ _ Hm). cbn [rbind]. f_equal.
  apply mask_rows_all_true.
  - unfold isin. rewrite values_series_mask, select_mask_filter.
    apply Forall_forall. intros b Hb. apply in_map_iff in Hb.
    destruct Hb as [c [E Hc]]. apply filter_In in Hc. destruct Hc as [_ Hc].
    rewrite <- E. exact Hc.
  - intros c s Hin. rewrite isin_length, (Hrect' c s Hin).
    rewrite (Hrect' "match_id" (series_mask (isin m ids) m)); [lia|].
    apply find_col_in, col_ok, col_mask_rows. exact Hm.
Qed.

Lemma restrict_twice_is_restrict_once_witness :
  restrict (mask_rows [true; true; false] Sample.ball) [Some (VInt 1)]
  = Ok (mask_rows [true; true; false] Sample.ball).
Proof.
  apply (restrict_twice_is_restrict_once Sample.ball
           (mask_rows [true; true; false] Sample.ball) [Some (VInt 1)]).
  - rectangular_by_cases.
  - reflexivity.
Defined.

Lemma select_mask_nth {A} (mask : list bool) (xs : list A) (i : nat) (d : A) :
  nth i mask false = true -> i < List.length xs ->
  In (nth i xs d) (select_mask mask xs).
Proof.
  revert xs i. induction mask as [|b m IH]; intros [|x xs] i Hm Hi;
    simpl in *; try lia.
  - destruct i; discriminate Hm.
  - destruct i as [|i].
    + subst b. left. reflexivity.
    + assert (Hin : In (nth i xs d) (select_mask m xs)) by (apply IH; [exact Hm | lia]).
      destruct b; [right|]; exact Hin.
Qed.

Lemma str_contains_length (s : Series) (pat : string) (mask : list bool) :
  str_contains s pat = Ok mask -> List.length mask = size s.
Proof.
  unfold str_contains. destruct s as [xs|xs|xs]; try discriminate.
  destruct (modelled_pattern pat); [|discriminate].
  intros H. inversion H; subst. apply length_map.
Qed.

(** Every row of the match list whose [teams] text passed the team test is
    kept in the filtered match list.  (Rows that share a [match_id] with
    such a row are kept as well.) *)
Theorem team_rows_survive_the_filter (team : option string)
    (ball_df info_df matches_df : DataFrame) (valid : list cell)
    (b' i' m' : DataFrame) (teams mids : Series) (mask : list bool) :
  rectangular matches_df ->
  col matches_df "teams" = Ok teams ->
  col matches_df "match_id" = Ok mids ->
  str_contains teams (team_text team) = Ok mask ->
  team_filter team ball_df info_df matches_df = Ok (Some valid, b', i', m') ->
  m' = mask_rows (isin mids valid) matches_df /\
  forall i, nth i mask false = true -> nth i (isin mids valid) false = true.
Proof.
  intros Hrect Hteams Hmids Hmask H. apply team_filter_parts in H.
  destruct H as [teams' [mask' [mids' [Ht [Hk [Hm [Hv [_ [_ Rm]]]]]]]]].
  rewrite Hteams in Ht. inversion Ht; subst teams'.
  rewrite Hmask in Hk. inversion Hk; subst mask'.
  rewrite Hmids in Hm. inversion Hm; subst mids'.
  split.
  - unfold restrict in Rm. rewrite Hmids in Rm. inversion Rm. reflexivity.
  - intros i Hi.
    assert (Hlen : i < List.length (values mids)).
    { rewrite values_length.
      rewrite (Hrect _ _ (find_col_in _ _ _ (proj1 (col_ok _ _ _) Hmids))).
      rewrite <- (Hrect _ _ (find_col_in _ _ _ (proj1 (col_ok _ _ _) Hteams))).
      rewrite <- (str_contains_length _ _ _ Hmask).
      destruct (Nat.lt_ge_cases i (List.length mask)) as [Hlt|Hge];
        [exact Hlt|].
      rewrite (nth_overflow _ _ Hge) in Hi. discriminate Hi. }
    unfold isin.
    rewrite (nth_indep _ false
               (existsb (cell_eqb None) valid)) by (rewrite length_map; exact Hlen).
    rewrite (map_nth (fun c => existsb (cell_eqb c) valid)).
    apply isin_true. subst valid.
    apply (dedup_In cell_eqb cell_eqb_eq).
    apply select_mask_nth; assumption.
Qed.

Lemma team_rows_survive_the_filter_witness :
  mask_rows [true; true; false] SamplePage.matches_repeated
  = mask_rows (isin (IntS [Some 1; Some 1; Some 2]%Z) [Some (VInt 1)])
      SamplePage.matches_repeated /\
  forall i, nth i [true; false; false] false = true ->
            nth i (isin (IntS [Some 1; Some 1; Some 2]%Z) [Some (VInt 1)]) false
            = true.
Proof.
  apply (team_rows_survive_the_filter (Some "India")
           Sample.ball Sample.info SamplePage.matches_repeated
           [Some (VInt 1)]
           (mask_rows [true; true; false] Sample.ball)
           (mask_rows [true; false] Sample.info)
           (mask_rows [true; true; false] SamplePage.matches_repeated)
           (StrS [Some "India vs Australia"; Some "Kenya vs Oman";
                  Some "England vs Australia"])
           (IntS [Some 1; Some 1; Some 2]%Z)
           [true; false; false]).
  - rectangular_by_cases.
  - reflexivity.
  - reflexivity.
  - reflexivity.
  - reflexivity.
Defined.

(** ** Value counts (lines 64, 71, 131, 148, 156) *)

Lemma total_perm (l l' : list Z) : Permutation l l' -> total l = total l'.
Proof.
  induction 1; simpl; try lia.
Qed.

Lemma count_true_notna (s : Series) :
  count_true (notna s) = Z.of_nat (List.length (non_null (values s))).
Proof.
  unfold count_true, notna. f_equal.
  induction (values s) as [|[v|] cs IH]; simpl; [reflexivity| |exact IH].
  rewrite IH. reflexivity.
Qed.

Lemma count_eq_positive {A} (eqb : A -> A -> bool)
    (eqb_spec : forall a b, eqb a b = true <-> a = b) (x : A) (l : list A) :
  In x l -> 1 <= count_eq eqb x l.
Proof.
  unfold count_eq. induction l as [|y l IH]; simpl; intros H; [destruct H|].
  destruct (eqb x y) eqn:E; simpl; [lia|].
  destruct H as [H|H]; [|apply IH; exact H].
  subst y. assert (E' : eqb x x = true) by (apply eqb_spec; reflexivity).
  rewrite E' in E. discriminate E.
Qed.

Lemma value_counts_perm (s : Series) :
  Permutation (value_counts s)
    (map (fun v => (v, Z.of_nat (count_eq val_eqb v (non_null (values s)))))
         (dedup val_eqb (non_null (values s)))).
Proof. unfold value_counts, sort_values_desc. apply sort_by_perm. Qed.

Lemma value_counts_total (s : Series) :
  total (map snd (value_counts s)) = count_true (notna s).
Proof.
  rewrite (total_perm _ _ (Permutation_map snd (value_counts_perm s))).
  rewrite map_map. simpl.
  rewrite (counts_add_up val_eqb val_eqb_eq).
  - symmetry. apply count_true_notna.
  - apply (dedup_NoDup val_eqb val_eqb_eq).
  - intros x Hx. apply (dedup_In val_eqb val_eqb_eq). exact Hx.
Qed.

(** [value_counts] is a census of the non-null cells: every value occurs
    once in it, with the number of cells that hold it (at least one); the
    counts never increase down the list; and they add up to the number of
    non-null cells. *)
Theorem value_counts_is_a_census (s : Series) :
  NoDup (map fst (value_counts s)) /\
  non_increasing snd (value_counts s) /\
  (forall k n, In (k, n) (value_counts s) ->
     (1 <= n)%Z /\ n = occurrences k s) /\
  total (map snd (value_counts s)) = count_true (notna s).
Proof.
  split; [|split; [|split]].
  - eapply Permutation_NoDup.
    + apply Permutation_sym, Permutation_map, value_counts_perm.
    + rewrite map_map. simpl. rewrite map_id.
      apply (dedup_NoDup val_eqb val_eqb_eq).
  - apply sort_values_desc_sorted.
  - intros k n Hin. apply value_counts_in in Hin. destruct Hin as [Hk ->].
    split; [|reflexivity].
    unfold occurrences. rewrite <- count_non_null.
    pose proof (count_eq_positive val_eqb val_eqb_eq k _ Hk). lia.
  - apply value_counts_total.
Qed.

(** ** Totals (lines 78-83) *)

Lemma totals_shape (ball_df : DataFrame) (t : list (string * Z)) :
  totals ball_df = Ok t ->
  exists rt wt re runs extras,
    col ball_df "runs_total" = Ok rt /\ series_sum rt = Ok runs /\
    col ball_df "wicket_type" = Ok wt /\
    col ball_df "runs_extras" = Ok re /\ series_sum re = Ok extras /\
    t = [ ("Total Runs", runs);
          ("Total Wickets", count_true (notna wt));
          ("Total Extras", extras);
          ("Total Balls", Z.of_nat (len ball_df)) ].
Proof.
  unfold totals. intros H.
  apply rbind_ok in H. destruct H as [rt [Hrt H]].
  apply rbind_ok in H. destruct H as [runs [Hruns H]].
  apply rbind_ok in H. destruct H as [wt [Hwt H]].
  apply rbind_ok in H. destruct H as [re [Hre H]].
  apply rbind_ok in H. destruct H as [extras [Hextras H]].
  inversion H; subst.
  exists rt, wt, re, runs, extras. repeat split; assumption.
Qed.

Lemma count_true_bounds (mask : list bool) :
  (0 <= count_true mask <= Z.of_nat (List.length mask))%Z.
Proof.
  unfold count_true. pose proof (filter_length_le (fun b => b) mask). lia.
Qed.

(** In the totals table the wickets are never negative and never more than
    the balls bowled. *)
Theorem total_wickets_at_most_total_balls (ball_df : DataFrame)
    (t : list (string * Z)) :
  rectangular ball_df ->
  totals ball_df = Ok t ->
  exists runs wickets extras,
    t = [ ("Total Runs", runs); ("Total Wickets", wickets);
          ("Total Extras", extras);
          ("Total Balls", Z.of_nat (len ball_df)) ] /\
    (0 <= wickets <= Z.of_nat (len ball_df))%Z.
Proof.
  intros Hrect H. apply totals_shape in H.
  destruct H as [rt [wt [re [runs [extras [_ [_ [Hwt [_ [_ ->]]]]]]]]]].
  exists runs, (count_true (notna wt)), extras. split; [reflexivity|].
  pose proof (count_true_bounds (notna wt)) as Hb.
  unfold notna in Hb at 3. rewrite length_map, values_length in Hb.
  rewrite (Hrect _ _ (find_col_in _ _ _ (proj1 (col_ok _ _ _) Hwt))) in Hb.
  exact Hb.
Qed.

Lemma total_wickets_at_most_total_balls_witness :
  exists runs wickets extras,
    [ ("Total Runs", 11%Z); ("Total Wickets", 1%Z);
      ("Total Extras", 1%Z); ("Total Balls", 3%Z) ]
    = [ ("Total Runs", runs); ("Total Wickets", wickets);
        ("Total Extras", extras);
        ("Total Balls", Z.of_nat (len Sample.ball)) ] /\
    (0 <= wickets <= Z.of_nat (len Sample.ball))%Z.
Proof.
  apply (total_wickets_at_most_total_balls Sample.ball).
  - rectangular_by_cases.
  - reflexivity.
Defined.

(** The wicket-type chart and the totals table agree: the counts of the
    chart add up to the "Total Wickets" scalar. *)
Theorem wicket_chart_adds_up_to_total_wickets (ball_df : DataFrame)
    (wk_counts : list (val * Z)) (t : list (string * Z)) :
  counts_of ball_df "wicket_type" = Ok wk_counts ->
  totals ball_df = Ok t ->
  In ("Total Wickets", total (map snd wk_counts)) t.
Proof.
  intros Hc Ht. apply totals_shape in Ht.
  destruct Ht as [rt [wt [re [runs [extras [_ [_ [Hwt [_ [_ ->]]]]]]]]]].
  unfold counts_of in Hc. rewrite Hwt in Hc. inversion Hc; subst.
  right. left. f_equal. symmetry.
  apply (value_counts_total wt).
Qed.

Lemma wicket_chart_adds_up_to_total_wickets_witness :
  In ("Total Wickets", total (map snd [(VStr "caught", 1%Z)]))
     [ ("Total Runs", 11%Z); ("Total Wickets", 1%Z);
       ("Total Extras", 1%Z); ("Total Balls", 3%Z) ].
Proof.
  apply (wicket_chart_adds_up_to_total_wickets Sample.ball); reflexivity.
Defined.

(** ** Toss decisions (line 138) *)

Lemma pair_eqb_eq (p q : val * val) : pair_eqb p q = true <-> p = q.
Proof.
  destruct p as [a b], q as [c d]. unfold pair_eqb. simpl.
  rewrite andb_true_iff, !val_eqb_eq. split.
  - intros [-> ->]. reflexivity.
  - intros H. inversion H. split; reflexivity.
Qed.

Lemma val_leb_total (a b : val) : val_leb a b = true \/ val_leb b a = true.
Proof.
  destruct a as [x|x], b as [y|y]; simpl.
  - destruct (Z.leb_spec x y); [left; reflexivity | right; apply Z.leb_le; lia].
  - left. reflexivity.
  - right. reflexivity.
  - apply String.leb_total.
Qed.

Lemma pair_leb_total (p q : val * val) :
  pair_leb p q = true \/ pair_leb q p = true.
Proof.
  unfold pair_leb. rewrite (val_eqb_sym (fst q) (fst p)).
  destruct (val_eqb (fst p) (fst q)); apply val_leb_total.
Qed.

Section InsertionOrder.

Context {A : Type} (before : A -> A -> bool).
Hypothesis before_total : forall x y, before x y = true \/ before y x = true.

Lemma insert_by_sorted (x : A) (l : list A) :
  Sorted (fun a b => before a b = true) l ->
  Sorted (fun a b => before a b = true) (insert_by before x l).
Proof.
  induction 1 as [|y l Hs IH Hy]; simpl.
  - constructor; constructor.
  - destruct (before x y) eqn:E.
    + constructor; [constructor; assumption | constructor; exact E].
    + constructor; [exact IH|].
      destruct l as [|z l]; simpl.
      * constructor. destruct (before_total x y) as [H|H]; [congruence | exact H].
      * destruct (before x z).
        -- constructor.
           destruct (before_total x y) as [H|H]; [congruence | exact H].
        -- inversion Hy; subst. constructor. assumption.
Qed.

Lemma sort_by_sorted (l : list A) :
  Sorted (fun a b => before a b = true) (sort_by before l).
Proof.
  unfold sort_by. induction l as [|x l IH]; simpl.
  - constructor.
  - apply insert_by_sorted. exact IH.
Qed.

End InsertionOrder.

Lemma Sorted_map {A B} (R : B -> B -> Prop) (f : A -> B) (l : list A) :
  Sorted (fun a b => R (f a) (f b)) l -> Sorted R (map f l).
Proof.
  induction 1 as [|x l Hs IH Hx]; simpl; constructor; [exact IH|].
  destruct Hx; simpl; constructor. assumption.
Qed.

Lemma zip_keys_count (w d : val) (xs ys : list cell) :
  count_eq pair_eqb (w, d) (zip_keys xs ys)
  = List.length
      (filter (fun p => cell_eqb (fst p) (Some w) && cell_eqb (snd p) (Some d))
              (combine xs ys)).
Proof.
  unfold count_eq. revert ys.
  induction xs as [|x xs IH]; intros [|y ys]; simpl; try reflexivity.
  - destruct x; reflexivity.
  - destruct x as [x|], y as [y|]; simpl; rewrite ?IH; try reflexivity.
    + unfold pair_eqb at 1. simpl.
      rewrite (val_eqb_sym w x), (val_eqb_sym d y).
      destruct (val_eqb x w && val_eqb y d); simpl; rewrite IH; reflexivity.
    + rewrite andb_false_r. reflexivity.
Qed.

Lemma count_eq_member {A} (eqb : A -> A -> bool)
    (eqb_spec : forall a b, eqb a b = true <-> a = b) (x : A) (l : list A) :
  1 <= count_eq eqb x l -> In x l.
Proof.
  unfold count_eq. induction l as [|y l IH]; simpl; intros H; [lia|].
  destruct (eqb x y) eqn:E.
  - left. symmetry. apply eqb_spec. exact E.
  - right. apply IH. exact H.
Qed.

(** The toss-decision table lists a pair (toss winner, decision) exactly
    when some info row holds both values, once, with the number of rows
    that hold them; its rows come in the order of their pairs; and its counts
    add up to the number of info rows in which both values are present. *)
Theorem toss_decision_counts_partition (info_df : DataFrame)
    (rows : list (val * val * Z)) :
  toss_decision_counts info_df = Ok rows ->
  exists a b,
    col info_df "toss_winner" = Ok a /\
    col info_df "toss_decision" = Ok b /\
    NoDup (map fst rows) /\
    Sorted (fun r r' => pair_leb (fst r) (fst r') = true) rows /\
    (forall w d n,
       In (w, d, n) rows <->
       n = pair_occurrences w d a b /\ (1 <= n)%Z) /\
    total (map snd rows) = rows_with_both a b.
Proof.
  unfold toss_decision_counts. intros H.
  apply rbind_ok in H. destruct H as [a [Ha H]].
  apply rbind_ok in H. destruct H as [b [Hb H]].
  inversion H; subst rows. clear H.
  exists a, b. split; [exact Ha|]. split; [exact Hb|].
  unfold groupby_size, rows_with_both, pair_occurrences.
  set (ps := zip_keys (values a) (values b)).
  pose proof (sort_by_perm pair_leb (dedup pair_eqb ps)) as Hperm.
  split; [|split; [|split]].
  - rewrite map_map. simpl.
    rewrite (map_ext _ (fun p => p)) by (intros [x y]; reflexivity).
    rewrite map_id.
    eapply Permutation_NoDup; [apply Permutation_sym, Hperm|].
    apply (dedup_NoDup pair_eqb pair_eqb_eq).
  - apply Sorted_map.
    exact (sort_by_sorted pair_leb pair_leb_total (dedup pair_eqb ps)).
  - intros w d n. rewrite <- zip_keys_count. fold ps. split.
    + intros Hin. apply in_map_iff in Hin. destruct Hin as [p [E Hp]].
      destruct p as [w' d']. simpl in E. inversion E; subst.
      apply (Permutation_in _ Hperm) in Hp.
      apply (proj1 (dedup_In pair_eqb pair_eqb_eq _ _)) in Hp.
      split; [reflexivity|].
      pose proof (count_eq_positive pair_eqb pair_eqb_eq (w, d) ps Hp). lia.
    + intros [-> Hn]. apply in_map_iff. exists (w, d). split; [reflexivity|].
      apply (Permutation_in _ (Permutation_sym Hperm)).
      apply (dedup_In pair_eqb pair_eqb_eq).
      apply (count_eq_member pair_eqb pair_eqb_eq). lia.
  - rewrite map_map. simpl.
    rewrite (total_perm _ _ (Permutation_map _ Hperm)).
    apply (counts_add_up pair_eqb pair_eqb_eq).
    + apply (dedup_NoDup pair_eqb pair_eqb_eq).
    + intros x Hx. apply (dedup_In pair_eqb pair_eqb_eq). exact Hx.
Qed.

Lemma toss_decision_counts_partition_witness :
  exists a b,
    col Sample.info "toss_winner" = Ok a /\
    col Sample.info "toss_decision" = Ok b /\
    NoDup (map fst [ (VStr "Australia", VStr "field", 1%Z);
                     (VStr "India", VStr "bat", 1%Z) ]) /\
    Sorted (fun r r' => pair_leb (fst r) (fst r') = true)
      [ (VStr "Australia", VStr "field", 1%Z);
        (VStr "India", VStr "bat", 1%Z) ] /\
    (forall w d n,
       In (w, d, n) [ (VStr "Australia", VStr "field", 1%Z);
                      (VStr "India", VStr "bat", 1%Z) ] <->
       n = pair_occurrences w d a b /\ (1 <= n)%Z) /\
    total (map snd [ (VStr "Australia", VStr "field", 1%Z);
                     (VStr "India", VStr "bat", 1%Z) ])
    = rows_with_both a b.
Proof.
  apply (toss_decision_counts_partition Sample.info). reflexivity.
Defined.

(** ** Leaderboards (lines 86-126) *)

Lemma sorted_app_order {A} (R : A -> A -> Prop) (l1 l2 : list A) :
  StronglySorted R (l1 ++ l2) ->
  forall a b, In a l1 -> In b l2 -> R a b.
Proof.
  induction l1 as [|x l1 IH]; simpl; intros Hs a b Ha Hb; [destruct Ha|].
  inversion Hs as [|? ? Hs' Hx]; subst.
  destruct Ha as [Ha|Ha].
  - subst a. rewrite Forall_forall in Hx. apply Hx.
    apply in_or_app. right. exact Hb.
  - exact (IH Hs' a b Ha Hb).
Qed.

Lemma top10_best_of {A} (key : A -> Z) (data : list A) :
  best_of key data (top10 key data).
Proof.
  unfold best_of, top10. exists (skipn 10 (sort_values_desc key data)).
  split; [|split].
  - rewrite firstn_skipn. apply Permutation_sym, sort_by_perm.
  - intros r r' Hr Hr'.
    apply (sorted_app_order (fun a b => (key b <= key a)%Z)
             (firstn 10 (sort_values_desc key data))
             (skipn 10 (sort_values_desc key data))); try assumption.
    rewrite firstn_skipn. apply sort_values_desc_sorted.
  - intros Hlen. apply skipn_all2. unfold sort_values_desc.
    rewrite (Permutation_length (sort_by_perm _ data)). exact Hlen.
Qed.

(** Each leaderboard holds the best of the rows collected for it: the
    collected rows are the board plus the rows left off, no row left off
    has a higher metric than a listed one, and with at most ten collected
    rows nobody is left off. *)
Theorem leaderboards_keep_the_best (fs : FS) (player_dir : string)
    (team : option string) (valid : option (list cell)) :
  (forall data, run_data fs player_dir team valid = Ok data ->
     exists board, run_df fs player_dir team valid = Ok board /\
                   best_of snd data board) /\
  (forall data, wk_data fs player_dir team valid = Ok data ->
     exists board, wk_df fs player_dir team valid = Ok board /\
                   best_of snd data board) /\
  (forall data, fld_data fs player_dir team valid = Ok data ->
     exists board, fld_df fs player_dir team valid = Ok board /\
                   best_of fielder_total data board).
Proof.
  unfold run_df, wk_df, fld_df.
  split; [|split]; intros data H; rewrite H; cbn [rbind];
    eexists; (split; [reflexivity | apply top10_best_of]).
Qed.

Lemma leaderboards_keep_the_best_witness :
  exists board,
    run_df Sample.fs (player_path "t20s_json") None None = Ok board /\
    best_of snd [("V Kohli", 4%Z); ("JE Root", 6%Z)] board.
Proof.
  apply (proj1 (leaderboards_keep_the_best Sample.fs (player_path "t20s_json")
                  None None)).
  reflexivity.
Defined.

Lemma player_loop_players {A} (fs : FS) (player_dir file : string)
    (team : option string) (valid : option (list cell))
    (metric : DataFrame -> result A) (names : list string)
    (data : list (string * A)) :
  player_loop fs player_dir file team valid metric names = Ok data ->
  map fst data = with_file fs player_dir file names.
Proof.
  unfold with_file. revert data.
  induction names as [|n names IH]; cbn [player_loop filter]; intros data H.
  - inversion H. reflexivity.
  - destruct (path_exists fs (path_join player_dir [n; file])).
    + apply rbind_ok in H. destruct H as [raw [_ H]].
      apply rbind_ok in H. destruct H as [df [_ H]].
      apply rbind_ok in H. destruct H as [x [_ H]].
      apply rbind_ok in H. destruct H as [rest [Hrest H]].
      inversion H; subst. simpl. rewrite (IH rest Hrest). reflexivity.
    + apply IH. exact H.
Qed.

Lemma player_data_players {A} (fs : FS) (player_dir file : string)
    (team : option string) (valid : option (list cell))
    (metric : DataFrame -> result A) (names : list string)
    (data : list (string * A)) :
  listdir fs player_dir = Ok names ->
  player_data fs player_dir file team valid metric = Ok data ->
  map fst data = with_file fs player_dir file names.
Proof.
  unfold player_data, path_exists, listdir.
  destruct (lookup fs player_dir) as [[es|r]|]; try discriminate.
  intros Hn. inversion Hn; subst. cbn [rbind]. apply player_loop_players.
Qed.

(** When a loop over the player directory succeeds, the players it collected
    are exactly the listed entries that have the file of that loop
    ([batter.csv], [bowler.csv], [fielder.csv]), once per listing entry and
    in listing order; a player without the file gets no row, not a zero. *)
Theorem collected_players_have_the_file (fs : FS) (player_dir : string)
    (team : option string) (valid : option (list cell)) (names : list string) :
  listdir fs player_dir = Ok names ->
  (forall data, run_data fs player_dir team valid = Ok data ->
     map fst data = with_file fs player_dir "batter.csv" names) /\
  (forall data, wk_data fs player_dir team valid = Ok data ->
     map fst data = with_file fs player_dir "bowler.csv" names) /\
  (forall data, fld_data fs player_dir team valid = Ok data ->
     map fst data = with_file fs player_dir "fielder.csv" names).
Proof.
  intros Hn. unfold run_data, wk_data, fld_data.
  split; [|split]; intros data H; eapply player_data_players; eassumption.
Qed.

Lemma collected_players_have_the_file_witness :
  map fst [("JE Root", 1%Z)]
  = with_file Sample.fs (player_path "t20s_json") "bowler.csv"
      ["V Kohli"; "JE Root"].
Proof.
  destruct (collected_players_have_the_file Sample.fs (player_path "t20s_json")
              None None ["V Kohli"; "JE Root"] eq_refl) as [_ [Hw _]].
  apply Hw. reflexivity.
Defined.

Lemma restrict_team_needs_ids (team : option string) (df df' : DataFrame) :
  truthy team = true -> restrict_team team None df <> Ok df'.
Proof.
  intros Ht. unfold restrict_team. rewrite Ht.
  destruct (col df "match_id"); simpl; discriminate.
Qed.

Lemma player_data_without_ids {A} (fs : FS) (player_dir file : string)
    (team : option string) (metric : DataFrame -> result A)
    (data : list (string * A)) :
  truthy team = true ->
  player_data fs player_dir file team None metric = Ok data ->
  data = [].
Proof.
  intros Ht H. destruct data as [|[p x] data]; [reflexivity|]. exfalso.
  destruct (player_data_rows _ _ _ _ _ _ _ H p x (or_introl eq_refl))
    as [raw [df [_ [Hdf _]]]].
  exact (restrict_team_needs_ids team raw df Ht Hdf).
Qed.

(** With a team set while [valid_match_ids] was never assigned (the filter
    block was skipped), no per-player table can be narrowed: a loop that
    succeeds has collected nothing, so each leaderboard is either empty or
    the render fails in it. *)
Theorem leaderboards_without_valid_ids (fs : FS) (player_dir : string)
    (team : option string) :
  truthy team = true ->
  (forall board, run_df fs player_dir team None = Ok board -> board = []) /\
  (forall board, wk_df fs player_dir team None = Ok board -> board = []) /\
  (forall board, fld_df fs player_dir team None = Ok board -> board = []).
Proof.
  intros Ht. unfold run_df, wk_df, fld_df, run_data, wk_data, fld_data.
  split; [|split]; intros board H; apply rbind_ok in H;
    destruct H as [data [Hd H]];
    rewrite (player_data_without_ids _ _ _ _ _ _ Ht Hd) in H;
    inversion H; reflexivity.
Qed.

Lemma leaderboards_without_valid_ids_witness :
  run_df Sample.fs (player_path "ipl_json") (Some "India") None = Ok [] /\
  @nil (string * Z) = [].
Proof.
  split; [reflexivity|].
  apply (proj1 (leaderboards_without_valid_ids Sample.fs (player_path "ipl_json")
                  (Some "India") eq_refl) []).
  reflexivity.
Defined.

(** ** The team test on plain names (line 45) *)

Lemma nth_map_default {A} (f : option A -> bool) (xs : list (option A))
    (i : nat) :
  f None = false -> nth i (map f xs) false = f (nth i xs None).
Proof.
  intros Hf. revert i. induction xs as [|x xs IH]; intros [|i]; simpl;
    try (symmetry; exact Hf); try reflexivity.
  apply IH.
Qed.

(** For a team name without regular-expression operators, the test of line
    45 on a text column succeeds, gives one truth value per row, and marks
    exactly the rows whose text is present and contains the name as a
    substring, with case distinguished. *)
Theorem plain_team_name_is_a_substring_test (xs : list (option string))
    (t : string) :
  plain_text t = true ->
  exists mask,
    str_contains (StrS xs) t = Ok mask /\
    List.length mask = List.length xs /\
    forall i, nth i mask false = true <->
              exists s, nth_error xs i = Some (Some s) /\ is_substring t s.
Proof.
  intros Ht. rewrite (str_contains_plain xs t Ht).
  eexists. split; [reflexivity|]. split; [apply length_map|].
  intros i. rewrite nth_map_default by reflexivity. split.
  - intros H. destruct (nth i xs None) as [s|] eqn:E; [|discriminate H].
    exists s. split; [|apply contains_literal_spec; exact H].
    destruct (Nat.lt_ge_cases i (List.length xs)) as [Hlt|Hge].
    + rewrite (nth_error_nth' xs None Hlt), E. reflexivity.
    + rewrite (nth_overflow _ _ Hge) in E. discriminate E.
  - intros [s [E Hs]]. rewrite (nth_error_nth _ _ None E).
    apply contains_literal_spec. exact Hs.
Qed.

Lemma plain_team_name_is_a_substring_test_witness :
  exists mask,
    str_contains (StrS [Some "India vs Australia"; None; Some "West Indies vs Kenya"])
      "India" = Ok mask /\
    List.length mask = 3 /\
    forall i, nth i mask false = true <->
              exists s, nth_error [Some "India vs Australia"; None;
                                   Some "West Indies vs Kenya"] i = Some (Some s)
                        /\ is_substring "India" s.
Proof.
  apply (plain_team_name_is_a_substring_test
           [Some "India vs Australia"; None; Some "West Indies vs Kenya"]
           "India").
  reflexivity.
Defined.

(** ** More on listings, the page and the margins *)

(** [get_players] returns the entries of the category's [player] directory
    that are themselves directories, and nothing else. *)
Theorem get_players_are_the_subdirectories (fs : FS) (folder : string)
    (team : option string) (players : list string) :
  get_players fs folder team = Ok players ->
  forall p,
    In p players <->
    (exists es, lookup fs (player_path folder) = Some (Dir es) /\ In p es) /\
    isdir fs (path_join (player_path folder) [p]) = true.
Proof. unfold get_players. fold (player_path folder). apply listing_ok. Qed.

Lemma get_players_are_the_subdirectories_witness :
  In "JE Root" ["V Kohli"; "JE Root"] <->
  (exists es, lookup Sample.fs (player_path "t20s_json") = Some (Dir es)
              /\ In "JE Root" es) /\
  isdir Sample.fs (path_join (player_path "t20s_json") ["JE Root"]) = true.
Proof.
  apply (get_players_are_the_subdirectories Sample.fs "t20s_json" None
           ["V Kohli"; "JE Root"]).
  reflexivity.
Defined.

(** When listing the teams of the picked category fails, the script stops
    before the team box is drawn: the page holds the title and the first
    select box only, and no dashboard. *)
Theorem page_stops_when_team_listing_fails (fs : FS)
    (pick_type pick_team pick_player : nat) (e : exn) :
  nth pick_type type_options "" <> "" ->
  get_teams fs (nth pick_type type_options "") = Raise e ->
  page fs pick_type pick_team pick_player
  = ([ set_page_config PAGE_TITLE "wide";
       title PAGE_TITLE;
       selectbox "Select Match Type" type_options
         (map subfolder_label type_options) ],
     Throw e).
Proof.
  intros Hmt He. apply nonempty_true in Hmt.
  unfold page, team_options. rewrite Hmt, He. reflexivity.
Qed.

Lemma page_stops_when_team_listing_fails_witness :
  page SamplePage.fs_team_is_file 5 0 0
  = ([ set_page_config PAGE_TITLE "wide";
       title PAGE_TITLE;
       selectbox "Select Match Type" type_options
         (map subfolder_label type_options) ],
     Throw (NotADirectoryError (team_path "t20s_json"))).
Proof.
  apply (page_stops_when_team_listing_fails SamplePage.fs_team_is_file 5 0 0).
  - discriminate.
  - reflexivity.
Defined.

(** The margins block raises exactly when its guard lets it through (one of
    the two margin columns is there) while one of the four columns it
    selects is not; the exception is the [KeyError] naming the missing
    columns.  Otherwise the block ends normally. *)
Theorem margins_fail_exactly_on_a_missing_column (matches_df : DataFrame)
    (e : exn) :
  ending (margins_section matches_df) = Throw e <->
  (has_col matches_df "outcome.by.wickets"
   || has_col matches_df "outcome.by.runs") = true /\
  filter (fun c => negb (has_col matches_df c)) margin_columns <> [] /\
  e = KeyError (filter (fun c => negb (has_col matches_df c)) margin_columns).
Proof.
  unfold ending, margins_section, margin_df, select_cols.
  destruct (has_col matches_df "outcome.by.wickets"
            || has_col matches_df "outcome.by.runs").
  - destruct (filter (fun c => negb (has_col matches_df c)) margin_columns)
      as [|c missing] eqn:E; cbn [rbind eval bind st fst snd].
    + split; [discriminate | intros [_ [H _]]; contradiction].
    + split.
      * intros H. inversion H; subst. repeat split. discriminate.
      * intros [_ [_ ->]]. reflexivity.
  - simpl. split; [discriminate | intros [H _]; discriminate H].
Qed.

Lemma margins_fail_exactly_on_a_missing_column_witness :
  ending (margins_section Sample.matches_by_runs)
  = Throw (KeyError ["outcome.by.wickets"]).
Proof.
  apply (proj2 (margins_fail_exactly_on_a_missing_column
                  Sample.matches_by_runs (KeyError ["outcome.by.wickets"]))).
  repeat split; try reflexivity. discriminate.
Defined.
